(** * NewsSense: the tool functions of [main.py] and the renderer of
    [ui_Main.py], embedded as Rocq functions.

    Python text is a list of Unicode code points, Python values are an
    inductive type, and code that can raise runs in an error monad whose
    [try_except] is Python's [try: ... except Exception as e: ...]. *)

From Stdlib Require Import List ZArith NArith Lia String Ascii Bool DecimalString.
Import ListNotations.

Set Warnings "-register-all".

(** ** Python [str] *)

Module Text.

Definition char := N.
Definition str := list char.

(** An ASCII literal as Python text. *)
Definition u (s : string) : str := map N_of_ascii (list_ascii_of_string s).

Definition LF : char := 10%N.
Definition BULLET : char := 8226%N.   (* U+2022 *)
Definition EN_DASH : char := 8211%N.  (* U+2013 *)

Fixpoint str_eqb (a b : str) : bool :=
  match a, b with
  | [], [] => true
  | x :: a', y :: b' => N.eqb x y && str_eqb a' b'
  | _, _ => false
  end.

Definition mem (c : char) (s : str) : bool := existsb (N.eqb c) s.

(** [str.isspace] on one code point (the whitespace set of [str.strip()]). *)
Definition isspace (c : char) : bool :=
  ((9 <=? c) && (c <=? 13) || (28 <=? c) && (c <=? 32)
   || (c =? 133) || (c =? 160) || (c =? 5760)
   || (8192 <=? c) && (c <=? 8202)
   || (c =? 8232) || (c =? 8233) || (c =? 8239) || (c =? 8287)
   || (c =? 12288))%N.

Fixpoint drop_while (p : char -> bool) (s : str) : str :=
  match s with
  | [] => []
  | c :: s' => if p c then drop_while p s' else s
  end.

Definition strip_by (p : char -> bool) (s : str) : str :=
  rev (drop_while p (rev (drop_while p s))).

(** [s.strip()] *)
Definition strip (s : str) : str := strip_by isspace s.

(** [s.strip(chars)] *)
Definition strip_chars (chars s : str) : str := strip_by (fun c => mem c chars) s.

(** [s.split(sep)] for a one-character separator. *)
Fixpoint split (sep : char) (s : str) : list str :=
  match s with
  | [] => [[]]
  | c :: s' =>
      if N.eqb c sep then [] :: split sep s'
      else match split sep s' with
           | [] => [[c]]
           | l :: ls => (c :: l) :: ls
           end
  end.

(** [sep.join(parts)] *)
Fixpoint join (sep : str) (parts : list str) : str :=
  match parts with
  | [] => []
  | [p] => p
  | p :: ps => p ++ sep ++ join sep ps
  end.

(** [str(z)] for an [int]. *)
Definition of_Z (z : Z) : str := u (NilZero.string_of_int (Z.to_int z)).

Definition hex_digit (n : N) : char :=
  (if n <? 10 then 48 + n else 87 + n)%N.

(** [n] in [k] lower-case hexadecimal digits. *)
Fixpoint hex (k : nat) (n : N) : str :=
  match k with
  | O => []
  | S k' => hex k' (n / 16) ++ [hex_digit (n mod 16)]
  end.

(** [str.isprintable] on one code point, as [repr] uses it: the control,
    format, separator, surrogate and private-use code points listed here are
    not printable.  The code points that the Unicode version in use leaves
    unassigned, and the format characters outside U+00AD, U+200B-U+200F,
    U+202A-U+202E, U+2060-U+206F and U+FEFF, are not printable in CPython
    either; they are not listed, their set changing with the version. *)
Definition printable (c : char) : bool :=
  negb ((c <? 32) || (127 <=? c) && (c <=? 160) || (c =? 173)
        || (c =? 5760)
        || (8192 <=? c) && (c <=? 8207)
        || (8232 <=? c) && (c <=? 8239)
        || (8287 <=? c) && (c <=? 8303)
        || (c =? 12288)
        || (55296 <=? c) && (c <=? 63743)
        || (c =? 65279)
        || (983040 <=? c))%N.

(** One character inside [repr(s)], [q] being the quote in use. *)
Definition repr_char (q c : char) : str :=
  if (c =? 92)%N then u "\\"
  else if (c =? q)%N then [92%N; q]
  else if (c =? 10)%N then u "\n"
  else if (c =? 13)%N then u "\r"
  else if (c =? 9)%N then u "\t"
  else if printable c then [c]
  else if (c <? 256)%N then u "\x" ++ hex 2 c
  else if (c <? 65536)%N then u "\u" ++ hex 4 c
  else u "\U" ++ hex 8 c.

Definition repr_str (s : str) : str :=
  let q := if mem 39%N s && negb (mem 34%N s) then 34%N else 39%N in
  [q] ++ flat_map (repr_char q) s ++ [q].

Definition starts_with (p : char -> bool) (s : str) : bool :=
  match s with
  | [] => false
  | c :: _ => p c
  end.

End Text.

Import Text.

(** ** Python values, exceptions and the built-ins the source uses *)

Module Py.

(** An exception: its class and what [str(e)] gives. *)
Inductive exn := Exn (cls : string) (text : str).

Definition exn_str (e : exn) : str := let 'Exn _ t := e in t.

Inductive result (A : Type) :=
| Return (a : A)
| Raise (e : exn).
Arguments Return {A} a.
Arguments Raise {A} e.

Definition bind {A B} (m : result A) (k : A -> result B) : result B :=
  match m with
  | Return a => k a
  | Raise e => Raise e
  end.

(** [try: body  except Exception as e: handler e] *)
Definition try_except {A} (body : result A) (handler : exn -> result A) : result A :=
  match body with
  | Return a => Return a
  | Raise e => handler e
  end.

Fixpoint mapM {A B} (f : A -> result B) (l : list A) : result (list B) :=
  match l with
  | [] => Return []
  | x :: l' =>
      bind (f x) (fun y => bind (mapM f l') (fun ys => Return (y :: ys)))
  end.

(** A Python value.  [VFloat] keeps what the source can observe of a float:
    its truth value and its text.  [VObject] is an instance of a class:
    [text] is [str(o)], [repr] is [repr(o)], [dump] is the result of
    [o.model_dump()] when the attribute exists (a pydantic model), [attrs] is
    [o.__dict__] when the attribute exists. *)
Inductive value :=
| VNone
| VBool (b : bool)
| VInt (z : Z)
| VFloat (nonzero : bool) (text : str)
| VStr (s : str)
| VList (l : list value)
| VDict (d : list (str * value))
| VObject (cls : string) (text repr : str)
          (dump : option (list (str * value)))
          (attrs : option (list (str * value))).

Definition dict := list (str * value).

Definition type_name (v : value) : str :=
  match v with
  | VNone => u "NoneType"
  | VBool _ => u "bool"
  | VInt _ => u "int"
  | VFloat _ _ => u "float"
  | VStr _ => u "str"
  | VList _ => u "list"
  | VDict _ => u "dict"
  | VObject cls _ _ _ _ => u cls
  end.

Definition AttributeError (v : value) (attr : string) : exn :=
  Exn "AttributeError"
      (u "'" ++ type_name v ++ u "' object has no attribute '" ++ u attr ++ u "'").

Definition TypeError (text : str) : exn := Exn "TypeError" text.

Definition KeyError (key : str) : exn := Exn "KeyError" (repr_str key).

(** Truth value of [v] in [if v] and [not v]. *)
Definition truthy (v : value) : bool :=
  match v with
  | VNone => false
  | VBool b => b
  | VInt z => negb (z =? 0)%Z
  | VFloat nz _ => nz
  | VStr s => match s with [] => false | _ => true end
  | VList l => match l with [] => false | _ => true end
  | VDict d => match d with [] => false | _ => true end
  | VObject _ _ _ _ _ => true
  end.

Fixpoint lookup (k : str) (d : dict) : option value :=
  match d with
  | [] => None
  | (k', v) :: d' => if str_eqb k k' then Some v else lookup k d'
  end.

(** [k in d] *)
Definition contains (k : str) (d : dict) : bool :=
  match lookup k d with Some _ => true | None => false end.

(** [d.get(k, default)] on a dict *)
Definition dict_get (d : dict) (k : str) (default : value) : value :=
  match lookup k d with Some v => v | None => default end.

(** [v.get(k, default)]: only a dict has the method. *)
Definition meth_get (v : value) (k : str) (default : value) : result value :=
  match v with
  | VDict d => Return (dict_get d k default)
  | _ => Raise (AttributeError v "get")
  end.

(** [v[k]] for a [str] key (CPython 3.12 messages). *)
Definition getitem (v : value) (k : str) : result value :=
  match v with
  | VDict d => match lookup k d with
               | Some x => Return x
               | None => Raise (KeyError k)
               end
  | VStr _ => Raise (TypeError (u "string indices must be integers, not 'str'"))
  | VList _ => Raise (TypeError (u "list indices must be integers or slices, not str"))
  | _ => Raise (TypeError (u "'" ++ type_name v ++ u "' object is not subscriptable"))
  end.

(** [v[:n]] *)
Definition slice_to (n : nat) (v : value) : result value :=
  match v with
  | VList l => Return (VList (firstn n l))
  | VStr s => Return (VStr (firstn n s))
  | VDict _ => Raise (Exn "KeyError" (u "slice(None, " ++ of_Z (Z.of_nat n) ++ u ", None)"))
  | _ => Raise (TypeError (u "'" ++ type_name v ++ u "' object is not subscriptable"))
  end.

(** The elements [for x in v] visits. *)
Definition iterate (v : value) : result (list value) :=
  match v with
  | VList l => Return l
  | VStr s => Return (map (fun c => VStr [c]) s)
  | VDict d => Return (map (fun kv => VStr (fst kv)) d)
  | _ => Raise (TypeError (u "'" ++ type_name v ++ u "' object is not iterable"))
  end.

(** [enumerate(l)] *)
Fixpoint enumerate_from {A} (i : Z) (l : list A) : list (Z * A) :=
  match l with
  | [] => []
  | x :: l' => (i, x) :: enumerate_from (i + 1) l'
  end.

Definition enumerate {A} (l : list A) : list (Z * A) := enumerate_from 0 l.

(** [repr(v)] *)
Fixpoint py_repr (v : value) : str :=
  match v with
  | VNone => u "None"
  | VBool true => u "True"
  | VBool false => u "False"
  | VInt z => of_Z z
  | VFloat _ t => t
  | VStr s => repr_str s
  | VList l => u "[" ++ join (u ", ") (map py_repr l) ++ u "]"
  | VDict d =>
      u "{" ++ join (u ", ")
                 (map (fun kv => repr_str (fst kv) ++ u ": " ++ py_repr (snd kv)) d)
        ++ u "}"
  | VObject _ _ r _ _ => r
  end.

(** [str(v)], which is also what an f-string field [{v}] inserts. *)
Definition py_str (v : value) : str :=
  match v with
  | VStr s => s
  | VObject _ t _ _ _ => t
  | _ => py_repr v
  end.

(** What [json.dumps] accepts: None, bool, int, float, str, and lists and
    string-keyed dicts of these. *)
Fixpoint is_json (v : value) : bool :=
  match v with
  | VList l => forallb is_json l
  | VDict d => forallb (fun kv => is_json (snd kv)) d
  | VObject _ _ _ _ _ => false
  | _ => true
  end.

Fixpoint first_non_json (v : value) : option value :=
  match v with
  | VList l => fold_right (fun x acc => match first_non_json x with
                                        | Some o => Some o
                                        | None => acc
                                        end) None l
  | VDict d => fold_right (fun kv acc => match first_non_json (snd kv) with
                                         | Some o => Some o
                                         | None => acc
                                         end) None d
  | VObject _ _ _ _ _ => Some v
  | _ => None
  end.

(** [json.dumps(v)].  The JSON text, a [str] in the code, is represented by
    the value that [json.loads] reads back from it: a result of [json_dumps]
    stands for that text and is not itself the dict or list, so it is read
    field by field but never handed to code that expects the decoded value.
    An object that JSON cannot hold raises TypeError. *)
Definition json_dumps (v : value) : result value :=
  if is_json v then Return v
  else Raise (TypeError (u "Object of type "
                           ++ match first_non_json v with
                              | Some o => type_name o
                              | None => []
                              end
                           ++ u " is not JSON serializable")).

End Py.

Import Py.

Declare Scope py_scope.
Delimit Scope py_scope with py.
Notation "x <- m ;; k" := (bind m (fun x => k))
  (at level 61, m at next level, right associativity) : py_scope.
Open Scope py_scope.

(** ** main.py *)

Module Main.

(** *** Startup: lines 14-31 *)

(** The six module globals read with [os.getenv]. *)
Record Settings := {
  BASE_URL : option str;
  API_KEY : option str;
  MODEL_NAME : option str;
  GNEWS_API_KEY : option str;
  GOOGLE_API_KEY : option str;
  SEARCH_ENGINE_ID : option str
}.

(** [not x] for the result of [os.getenv]: None and the empty text are false. *)
Definition unset (x : option str) : bool :=
  match x with
  | None => true
  | Some [] => true
  | Some (_ :: _) => false
  end.

Definition config_error : exn :=
  Exn "ValueError"
      (u "Please set BASE_URL, API_KEY, and MODEL_NAME in your environment.").

(** Lines 19-29: the settings and their check; [getenv] is the process
    environment after [load_dotenv()]. *)
Definition load_settings (getenv : str -> option str) : result Settings :=
  let BASE_URL := getenv (u "BASE_URL") in
  let API_KEY := getenv (u "API_KEY") in
  let MODEL_NAME := getenv (u "MODEL_NAME") in
  let GNEWS_API_KEY := getenv (u "GNEWS_API_KEY") in
  let GOOGLE_API_KEY := getenv (u "GOOGLE_API_KEY") in
  let SEARCH_ENGINE_ID := getenv (u "SEARCH_ENGINE_ID") in
  if unset BASE_URL || unset API_KEY || unset MODEL_NAME
  then Raise config_error
  else Return {| BASE_URL := BASE_URL; API_KEY := API_KEY;
                 MODEL_NAME := MODEL_NAME; GNEWS_API_KEY := GNEWS_API_KEY;
                 GOOGLE_API_KEY := GOOGLE_API_KEY;
                 SEARCH_ENGINE_ID := SEARCH_ENGINE_ID |}.

(** Lines 14-29: module initialisation.  [logfire_configure] and
    [instrument_openai_agents] are the outcomes of [logfire.configure()] and
    [logfire.instrument_openai_agents()], which run first and return or
    raise (a LogfireConfigError when Logfire itself is not configured).  What
    follows line 29 (the client, the tools, the agents) exists only when this
    returns. *)
Definition module_init (logfire_configure instrument_openai_agents : result unit)
    (getenv : str -> option str) : result Settings :=
  configured <- logfire_configure ;;
  instrumented <- instrument_openai_agents ;;
  load_settings getenv.

(** *** UserContext: lines 50-60 *)

Definition datetime := Z.

Record UserContext := {
  user_id : str;
  preferred_topics : list str;
  session_start : datetime
}.

(** The system clock: [datetime.now()] returns the next reading. *)
Record Clock := { reads : nat; reading : nat -> datetime }.

Definition datetime_now (c : Clock) : datetime * Clock :=
  (reading c (reads c), {| reads := S (reads c); reading := reading c |}).

(** [UserContext(user_id, preferred_topics, session_start)]: the generated
    [__init__] stores the arguments (None when not given), then
    [__post_init__] replaces a None field. *)
Definition new_UserContext (user_id : str)
    (preferred_topics : option (list str)) (session_start : option datetime)
    (c : Clock) : UserContext * Clock :=
  let preferred_topics :=
    match preferred_topics with
    | None => []
    | Some l => l
    end in
  let '(session_start, c) :=
    match session_start with
    | None => datetime_now c
    | Some t => (t, c)
    end in
  ({| user_id := user_id; preferred_topics := preferred_topics;
      session_start := session_start |}, c).

(** *** Result models: lines 34-48 *)

Record TrendingNewsItem := {
  headline : str;
  source : str;
  category : str;
  summary : str;
  rank : Z
}.

Record FactCheckResult := {
  is_true : option bool;
  verdict : str;
  sources : list str
}.

Record NewsSummary := {
  topic : str;
  bullet_points : list str
}.

(** *** The HTTP library *)

Record Request := { url : str; params : dict }.

(** A response: [json] is what [response.json()] does. *)
Record Response := {
  status_code : Z;
  text : str;
  json : result value
}.

(** [requests.get]: returns a response or raises. *)
Definition transport := Request -> result Response.

Definition opt_value (x : option str) : value :=
  match x with
  | None => VNone
  | Some s => VStr s
  end.

(** *** get_trending_news: lines 63-117 *)

(** The dict literal with the five keys of a news item. *)
Definition news_item (headline source category summary : value) (rank : Z) : value :=
  VDict [(u "headline", headline); (u "source", source);
         (u "category", category); (u "summary", summary);
         (u "rank", VInt rank)].

(** The body of the comprehension of lines 98-106 for one [(i, a)]. *)
Definition article_item (topic : option str) (ia : Z * value) : result value :=
  let '(i, a) := ia in
  headline <- meth_get a (u "title") (VStr (u "No headline")) ;;
  src <- meth_get a (u "source") (VDict []) ;;
  name <- meth_get src (u "name") (VStr (u "Unknown")) ;;
  summary <- meth_get a (u "description") (VStr []) ;;
  Return (news_item headline name (opt_value topic) summary (i + 1)).

Definition trending_request (GNEWS_API_KEY topic : option str) : Request :=
  {| url := u "https://gnews.io/api/v4/search";
     params := [(u "q", VStr match topic with
                             | Some (c :: t) => c :: t
                             | _ => u "breaking"
                             end);
                (u "lang", VStr (u "en"));
                (u "max", VInt 5);
                (u "token", opt_value GNEWS_API_KEY)] |}.

(** The two debug [print] calls write to the console and are left out. *)
Definition get_trending_news (requests_get : transport) (GNEWS_API_KEY : option str)
    (topic category : option str) : result value :=
  try_except
    (response <- requests_get (trending_request GNEWS_API_KEY topic) ;;
     if negb (status_code response =? 200)%Z then
       json_dumps (VList [news_item
         (VStr (u "Failed to fetch news")) (VStr (u "System")) (opt_value topic)
         (VStr (u "API error " ++ of_Z (status_code response) ++ u ": "
                  ++ text response))
         1])
     else
       body <- json response ;;
       articles <- meth_get body (u "articles") (VList []) ;;
       if negb (truthy articles) then
         json_dumps (VList [news_item
           (VStr (u "No news found")) (VStr (u "GNews")) (opt_value topic)
           (VStr (u "No articles found for this topic."))
           1])
       else
         elems <- iterate articles ;;
         results <- mapM (article_item topic) (enumerate elems) ;;
         json_dumps (VList results))
    (fun e =>
       json_dumps (VList [news_item
         (VStr (u "Error fetching news")) (VStr (u "Exception")) (opt_value topic)
         (VStr (exn_str e))
         1])).

(** *** fact_check_claim: lines 119-137 *)

(** An f-string field holding a module global. *)
Definition fmt_opt (x : option str) : str := py_str (opt_value x).

Definition fact_check_request (GOOGLE_API_KEY SEARCH_ENGINE_ID : option str)
    (claim : str) : Request :=
  {| url := u "https://www.googleapis.com/customsearch/v1?q=" ++ claim
              ++ u "&key=" ++ fmt_opt GOOGLE_API_KEY
              ++ u "&cx=" ++ fmt_opt SEARCH_ENGINE_ID;
     params := [] |}.

Definition fact_check_record (verdict : str) (sources : list value) : value :=
  VDict [(u "is_true", VNone); (u "verdict", VStr verdict);
         (u "sources", VList sources)].

Definition fact_check_claim (requests_get : transport)
    (GOOGLE_API_KEY SEARCH_ENGINE_ID : option str) (claim : str) : result value :=
  try_except
    (response <- requests_get (fact_check_request GOOGLE_API_KEY SEARCH_ENGINE_ID claim) ;;
     body <- json response ;;
     items <- meth_get body (u "items") (VList []) ;;
     first3 <- slice_to 3 items ;;
     elems <- iterate first3 ;;
     sources <- mapM (fun item => getitem item (u "link")) elems ;;
     let verdict := if negb (truthy items) then u "Unverified claim"
                    else u "Supporting sources found" in
     json_dumps (fact_check_record verdict sources))
    (fun e =>
       json_dumps (fact_check_record (u "Error: " ++ exn_str e) [])).

(** *** summarize_news: lines 139-157 *)

(** A chat completion, as far as the source reads it: the
    [message.content] of each choice. *)
Record ChatCompletion := { choices : list (option str) }.

(** The completion endpoint: model name and prompt to completion. *)
Definition provider := option str -> str -> result ChatCompletion.

(** What [client.chat.completions.create(...)] evaluates to: the completion
    itself, or, when [create] is an [async def], a coroutine object that
    would give the completion once awaited. *)
Inductive created :=
| Completion (c : ChatCompletion)
| Coroutine (pending : result ChatCompletion).

Record Client := { create : option str -> str -> result created }.

(** [AsyncOpenAI]: [create] is a coroutine function, so calling it builds
    the coroutine and returns at once. *)
Definition AsyncOpenAI (p : provider) : Client :=
  {| create := fun model prompt => Return (Coroutine (p model prompt)) |}.

(** A client whose [create] is an ordinary function (the synchronous
    [OpenAI] client, or a stub that returns the completion directly). *)
Definition OpenAI (p : provider) : Client :=
  {| create := fun model prompt => c <- p model prompt ;; Return (Completion c) |}.

(** Line 31: the module's client. *)
Definition client (p : provider) : Client := AsyncOpenAI p.

(** [response.choices] *)
Definition get_choices (response : created) : result (list (option str)) :=
  match response with
  | Completion c => Return (choices c)
  | Coroutine _ =>
      Raise (Exn "AttributeError" (u "'coroutine' object has no attribute 'choices'"))
  end.

(** [choices[0].message.content.strip()] *)
Definition first_content_stripped (cs : list (option str)) : result str :=
  match cs with
  | [] => Raise (Exn "IndexError" (u "list index out of range"))
  | None :: _ => Raise (AttributeError VNone "strip")
  | Some content :: _ => Return (strip content)
  end.

Definition markers : str := u "-" ++ [BULLET] ++ u " ".

(** Line 148. *)
Definition summary_lines (summary_text : str) : list str :=
  map (fun line => strip (strip_chars markers line))
      (filter (fun line => truthy (VStr (strip line))) (split LF summary_text)).

Definition summary_record (topic : str) (bullet_points : list str) : value :=
  VDict [(u "topic", VStr topic);
         (u "bullet_points", VList (map VStr bullet_points))].

Definition summarize_news_with (client : Client) (MODEL_NAME : option str)
    (article_text : str) : result value :=
  try_except
    (let prompt :=
       u "Summarize the following news article into 3-5 bullet points:"
         ++ [LF; LF] ++ article_text in
     response <- create client MODEL_NAME prompt ;;
     cs <- get_choices response ;;
     summary_text <- first_content_stripped cs ;;
     json_dumps (summary_record (u "Custom Article Summary")
                                (summary_lines summary_text)))
    (fun e =>
       json_dumps (summary_record (u "Summarization Error")
                    [u "Failed to summarize article: " ++ exn_str e])).

(** The tool as the module defines it: with the client of line 31. *)
Definition summarize_news (p : provider) (MODEL_NAME : option str)
    (article_text : str) : result value :=
  summarize_news_with (client p) MODEL_NAME article_text.

End Main.

(** ** ui_Main.py *)

Module UI.

(** Lines 75-78: a pydantic model is replaced by its [model_dump()], any
    other object that has a [__dict__] by that dict. *)
Definition as_mapping (output : value) : value :=
  match output with
  | VObject _ _ _ (Some d) _ => VDict d
  | VObject _ _ _ None (Some a) => VDict a
  | _ => output
  end.

Definition source_line (s : value) : str :=
  u "- [" ++ py_str s ++ u "](" ++ py_str s ++ u ")".

Definition bullet_line (pt : value) : str := u "- " ++ py_str pt.

(** Lines 74-90. *)
Definition format_response (output : value) : result str :=
  let output := as_mapping output in
  match output with
  | VDict d =>
      if contains (u "headline") d then
        h <- getitem output (u "headline") ;;
        s <- getitem output (u "source") ;;
        m <- getitem output (u "summary") ;;
        Return (u "**" ++ py_str h ++ u "**" ++ [LF; LF] ++ u "_" ++ py_str s
                  ++ u " " ++ [EN_DASH] ++ u " " ++ py_str m)
      else if contains (u "verdict") d then
        srcs <- iterate (dict_get d (u "sources") (VList [])) ;;
        let sources := join [LF] (map source_line srcs) in
        v <- getitem output (u "verdict") ;;
        Return (u "**Verdict:** " ++ py_str v ++ [LF; LF] ++ u "**Sources:**"
                  ++ [LF] ++ sources)
      else if contains (u "bullet_points") d then
        bp <- getitem output (u "bullet_points") ;;
        pts <- iterate bp ;;
        let bullets := join [LF] (map bullet_line pts) in
        t <- getitem output (u "topic") ;;
        Return (u "**Topic:** " ++ py_str t ++ [LF; LF] ++ bullets)
      else Return (py_str output)
  | _ => Return (py_str output)
  end.

(** The three result models of main.py as Python objects. *)
Definition field_text (kv : str * value) : str := fst kv ++ u "=" ++ py_repr (snd kv).

Definition model (cls : string) (fields : dict) : value :=
  VObject cls (join (u " ") (map field_text fields))
          (u cls ++ u "(" ++ join (u ", ") (map field_text fields) ++ u ")")
          (Some fields) (Some fields).

Definition of_TrendingNewsItem (t : Main.TrendingNewsItem) : value :=
  model "TrendingNewsItem"
    [(u "headline", VStr (Main.headline t)); (u "source", VStr (Main.source t));
     (u "category", VStr (Main.category t)); (u "summary", VStr (Main.summary t));
     (u "rank", VInt (Main.rank t))].

Definition of_FactCheckResult (r : Main.FactCheckResult) : value :=
  model "FactCheckResult"
    [(u "is_true", match Main.is_true r with
                   | None => VNone
                   | Some b => VBool b
                   end);
     (u "verdict", VStr (Main.verdict r));
     (u "sources", VList (map VStr (Main.sources r)))].

Definition of_NewsSummary (n : Main.NewsSummary) : value :=
  model "NewsSummary"
    [(u "topic", VStr (Main.topic n));
     (u "bullet_points", VList (map VStr (Main.bullet_points n)))].

End UI.

(** ** ui_Main.py: the session and the script *)

Module Chat.

(** One entry of [st.session_state.chat_history]: the dict literal with the
    keys role, content and timestamp. *)
Record ChatTurn := { role : str; content : str; timestamp : str }.

(** What the script reads from outside: the clock, and the successive
    results of [uuid.uuid4()]. *)
Record World := {
  clock : Main.Clock;
  uuids_drawn : nat;
  uuid_at : nat -> str
}.

(** [str(uuid.uuid4())] *)
Definition uuid4 (w : World) : str * World :=
  (uuid_at w (uuids_drawn w),
   {| clock := clock w; uuids_drawn := S (uuids_drawn w); uuid_at := uuid_at w |}).

Definition two_digits (n : Z) : str :=
  [Z.to_N (48 + n / 10); Z.to_N (48 + n mod 10)].

(** [t.strftime("%I:%M %p")], a [datetime] being read as seconds of local
    wall-clock time: the hour on the 12-hour clock, the minute, AM or PM. *)
Definition strftime_I_M_p (t : Main.datetime) : str :=
  let h := ((t / 3600) mod 24)%Z in
  let m := ((t / 60) mod 60)%Z in
  two_digits ((h + 11) mod 12 + 1) ++ u ":" ++ two_digits m ++ u " "
    ++ (if (h <? 12)%Z then u "AM" else u "PM").

(** [datetime.now().strftime("%I:%M %p")] *)
Definition now_stamp (w : World) : str * World :=
  let '(t, c) := Main.datetime_now (clock w) in
  (strftime_I_M_p t,
   {| clock := c; uuids_drawn := uuids_drawn w; uuid_at := uuid_at w |}).

(** [st.session_state] at the start of a script run: a key is None when it
    is not in the session state yet. *)
Record SessionKeys := {
  k_chat_history : option (list ChatTurn);
  k_thread_id : option str;
  k_user_context : option Main.UserContext;
  k_processing_message : option (option str)
}.

(** The session state once the four keys exist. *)
Record Session := {
  chat_history : list ChatTurn;
  thread_id : str;
  user_context : Main.UserContext;
  processing_message : option str
}.

Definition keys_of (s : Session) : SessionKeys :=
  {| k_chat_history := Some (chat_history s);
     k_thread_id := Some (thread_id s);
     k_user_context := Some (user_context s);
     k_processing_message := Some (processing_message s) |}.

Definition no_keys : SessionKeys :=
  {| k_chat_history := None; k_thread_id := None; k_user_context := None;
     k_processing_message := None |}.

(** Lines 64-71. *)
Definition init_session (keys : SessionKeys) (w : World) : Session * World :=
  let chat_history :=
    match k_chat_history keys with
    | None => []
    | Some h => h
    end in
  let '(thread_id, w) :=
    match k_thread_id keys with
    | None => uuid4 w
    | Some t => (t, w)
    end in
  let '(user_context, w) :=
    match k_user_context keys with
    | None =>
        let '(uid, w) := uuid4 w in
        let '(ctx, c) := Main.new_UserContext uid None None (clock w) in
        (ctx, {| clock := c; uuids_drawn := uuids_drawn w; uuid_at := uuid_at w |})
    | Some ctx => (ctx, w)
    end in
  let processing_message :=
    match k_processing_message keys with
    | None => None
    | Some m => m
    end in
  ({| chat_history := chat_history; thread_id := thread_id;
      user_context := user_context; processing_message := processing_message |},
   w).

Definition append_turn (s : Session) (t : ChatTurn) : Session :=
  {| chat_history := chat_history s ++ [t]; thread_id := thread_id s;
     user_context := user_context s;
     processing_message := processing_message s |}.

Definition set_processing_message (s : Session) (m : option str) : Session :=
  {| chat_history := chat_history s; thread_id := thread_id s;
     user_context := user_context s; processing_message := m |}.

(** Lines 92-99. *)
Definition handle_user_input (user_input : str) (s : Session) (w : World)
  : Session * World :=
  let '(timestamp, w) := now_stamp w in
  let s := append_turn s {| role := u "user"; content := user_input;
                            timestamp := timestamp |} in
  (set_processing_message s (Some user_input), w).

(** Lines 105-107: the Save Preferences button. *)
Definition save_preferences (preferred_topics : list str) (s : Session) : Session :=
  {| chat_history := chat_history s; thread_id := thread_id s;
     user_context :=
       {| Main.user_id := Main.user_id (user_context s);
          Main.preferred_topics := preferred_topics;
          Main.session_start := Main.session_start (user_context s) |};
     processing_message := processing_message s |}.

(** Lines 110-113: the New Session button. *)
Definition new_session (s : Session) (w : World) : Session * World :=
  let '(tid, w) := uuid4 w in
  ({| chat_history := []; thread_id := tid; user_context := user_context s;
      processing_message := processing_message s |}, w).

(** [asyncio.run(Runner.run(controller_agent, user_input, context=...))
    .final_output]: the agent run, which returns its final output or raises. *)
Definition runner := str -> Main.UserContext -> result value.

(** The dict appended on lines 157-161 and 164-168. *)
Definition append_assistant (response_text : str) (s : Session) (w : World)
  : Session * World :=
  let '(timestamp, w) := now_stamp w in
  (append_turn s {| role := u "assistant"; content := response_text;
                    timestamp := timestamp |}, w).

(** The loop of lines 155-161: stops at the first item whose rendering
    raises, with what was appended before it. *)
Fixpoint render_items (items : list value) (s : Session) (w : World)
  : Session * World * option exn :=
  match items with
  | [] => (s, w, None)
  | item :: rest =>
      match UI.format_response item with
      | Raise e => (s, w, Some e)
      | Return response_text =>
          let '(s, w) := append_assistant response_text s w in
          render_items rest s w
      end
  end.

(** The handler of lines 169-174. *)
Definition append_error (e : exn) (s : Session) (w : World) : Session * World :=
  append_assistant (u "Error: " ++ exn_str e) s w.

(** Lines 142-175.  The boolean tells whether [st.rerun()] was reached. *)
Definition process_pending (run : runner) (s : Session) (w : World)
  : Session * World * bool :=
  match processing_message s with
  | Some (c :: t) =>
      let user_input := c :: t in
      let s := set_processing_message s None in
      let '(s, w) :=
        match run user_input (user_context s) with
        | Raise e => append_error e s w
        | Return (VList items) =>
            match render_items items s w with
            | (s, w, Some e) => append_error e s w
            | (s, w, None) => (s, w)
            end
        | Return final_output =>
            match UI.format_response final_output with
            | Raise e => append_error e s w
            | Return response_text => append_assistant response_text s w
            end
        end in
      (s, w, true)
  | _ => (s, w, false)
  end.

(** What the widgets return in one script run. *)
Record Widgets := {
  selected_topics : list str;      (* st.multiselect *)
  save_clicked : bool;             (* st.button("Save Preferences") *)
  new_session_clicked : bool;      (* st.button("New Session") *)
  user_prompt : option str         (* st.chat_input *)
}.

Definition idle (s : Session) : Widgets :=
  {| selected_topics := Main.preferred_topics (user_context s);
     save_clicked := false; new_session_clicked := false; user_prompt := None |}.

(** One run of the script on an initialised session, lines 101-175.  The
    boolean tells whether the run ended in [st.rerun()]. *)
Definition script_run (run : runner) (wd : Widgets) (s : Session) (w : World)
  : Session * World * bool :=
  let s := if save_clicked wd then save_preferences (selected_topics wd) s else s in
  let '(s, w) := if new_session_clicked wd then new_session s w else (s, w) in
  match user_prompt wd with
  | Some (c :: t) =>
      let '(s, w) := handle_user_input (c :: t) s w in
      (s, w, true)
  | _ => process_pending run s w
  end.

(** Script runs one after the other, each with its widget values. *)
Fixpoint script_runs (run : runner) (wds : list Widgets) (s : Session) (w : World)
  : Session * World :=
  match wds with
  | [] => (s, w)
  | wd :: rest =>
      let '(s, w, _) := script_run run wd s w in
      script_runs run rest s w
  end.

End Chat.

(** * Specification predicates and sample inputs *)

(** The names tested on line 28. *)
Definition required_names : list str := [u "BASE_URL"; u "API_KEY"; u "MODEL_NAME"].

(** A setting is required when startup fails in every environment that
    lacks it. *)
Definition required (name : str) : Prop :=
  forall getenv, getenv name = None ->
                 Main.load_settings getenv = Raise Main.config_error.

(** A setting is required at startup when module initialisation fails in
    every environment that lacks it, whatever Logfire's setup does. *)
Definition startup_requires (name : str) : Prop :=
  forall configure instrument getenv,
    getenv name = None ->
    exists e, Main.module_init configure instrument getenv = Raise e.

(** What [logfire.configure()] raises when Logfire has no token. *)
Definition logfire_not_configured : exn :=
  Exn "LogfireConfigError" (u "You are not authenticated.").

(** An environment in which every name is set, BASE_URL to the empty text. *)
Definition env_empty_base_url (name : str) : option str :=
  if str_eqb name (u "BASE_URL") then Some [] else Some (u "x").

(** An environment in which only [name] is missing. *)
Definition env_without (name : str) (k : str) : option str :=
  if str_eqb k name then None else Some (u "x").

(** The rank a news item carries. *)
Definition rank_of (v : value) : option Z :=
  match v with
  | VDict d => match lookup (u "rank") d with
               | Some (VInt z) => Some z
               | _ => None
               end
  | _ => None
  end.

(** The ranks of a batch are 1, 2, ..., in this order. *)
Definition ranks_from_1 (batch : list value) : Prop :=
  map rank_of batch = map (fun n => Some (Z.of_nat n)) (seq 1 (List.length batch)).


(** The result is a single degraded news item: text in [headline], [source]
    and [summary], the topic as [category], rank 1. *)
Definition degraded_batch (topic : option str) (r : result value) : Prop :=
  exists h s m,
    r = Return (VList [Main.news_item (VStr h) (VStr s) (Main.opt_value topic)
                                      (VStr m) 1]).






(** An HTTP provider that answers every request with one response. *)
Definition stub_response (status : Z) (text : str) (body : result value)
  : Main.transport :=
  fun _ => Return {| Main.status_code := status; Main.text := text;
                     Main.json := body |}.


(** The link of a search item, when the item is a dict that has one. *)
Definition link_of (item : value) : option value :=
  match item with
  | VDict d => lookup (u "link") d
  | _ => None
  end.

Definition four_items : list value :=
  [VDict [(u "link", VStr (u "http://a"))];
   VDict [(u "title", VStr (u "t")); (u "link", VStr (u "http://b"))];
   VDict [(u "link", VStr (u "http://c"))];
   VDict [(u "link", VStr (u "http://d"))]].

(** A search provider that is down. *)
Definition failing_transport (e : exn) : Main.transport := fun _ => Raise e.

Definition connection_refused : exn := Exn "ConnectionError" (u "connection refused").

(** What [response.json()] raises on a body that is not JSON. *)
Definition not_json : exn :=
  Exn "JSONDecodeError" (u "Expecting value: line 1 column 1 (char 0)").

(** A completion endpoint that always answers [content]. *)
Definition stub_completion (content : str) : Main.provider :=
  fun _ _ => Return {| Main.choices := [Some content] |}.

(** "- point one\n- point two\n- point three" *)
Definition three_points : str :=
  u "- point one" ++ [LF] ++ u "- point two" ++ [LF] ++ u "- point three".

(** A line made of dashes only, and a second line whose dash follows a tab. *)
Definition rule_line : str := u "---".
Definition tab_indented : str := u "a" ++ [LF; 9%N] ++ u "- b".

(** What C4 asks of a bullet: not empty after trimming, and no dash or
    bullet sign in front. *)
Definition clean_bullet (e : str) : Prop :=
  strip e <> [] /\ starts_with (fun c => mem c (u "-" ++ [BULLET])) e = false.

(** [s] neither begins nor ends with a character of [p]. *)
Definition trimmed (p : char -> bool) (s : str) : Prop :=
  starts_with p s = false /\ starts_with p (rev s) = false.

(** [ValueError("boom")]: an exception instance has an empty [__dict__]. *)
Definition boom : value :=
  VObject "ValueError" (u "boom") (u "ValueError('boom')") None (Some []).

(** A dict that has a headline and nothing else. *)
Definition headline_only : value := VDict [(u "headline", VStr (u "h"))].

Definition trending_text (h s m : value) : str :=
  u "**" ++ py_str h ++ u "**" ++ [LF; LF] ++ u "_" ++ py_str s
    ++ u " " ++ [EN_DASH] ++ u " " ++ py_str m.

Definition verdict_text (v : value) (srcs : list value) : str :=
  u "**Verdict:** " ++ py_str v ++ [LF; LF] ++ u "**Sources:**" ++ [LF]
    ++ join [LF] (map UI.source_line srcs).

Definition summary_text (t : value) (pts : list value) : str :=
  u "**Topic:** " ++ py_str t ++ [LF; LF] ++ join [LF] (map UI.bullet_line pts).

(** ** Sample inputs for the further properties *)

(** The body Google answers with when the key is refused. *)
Definition forbidden_body : dict :=
  [(u "error", VDict [(u "code", VInt 403); (u "message", VStr (u "forbidden"))])].


(** Three items with links, then one item without a link. *)
Definition bad_fourth_item : list value :=
  [VDict [(u "link", VStr (u "http://a"))];
   VDict [(u "link", VStr (u "http://b"))];
   VDict [(u "link", VStr (u "http://c"))];
   VDict [(u "title", VStr (u "no link"))]].

(** The news item whose category is [c]. *)
Definition has_category (c : value) (item : value) : Prop :=
  exists h s m r,
    item = VDict [(u "headline", h); (u "source", s); (u "category", c);
                  (u "summary", m); (u "rank", VInt r)].

(** A completion without choices, and one whose first choice has no
    content. *)
Definition no_choices : Main.Client :=
  {| Main.create := fun _ _ => Return (Main.Completion {| Main.choices := [] |}) |}.

Definition null_content : Main.Client :=
  {| Main.create := fun _ _ =>
       Return (Main.Completion {| Main.choices := [None] |}) |}.

(** A bullet that survives rendering and parsing: not empty, no line feed,
    and neither a marker nor whitespace at either end. *)
Definition plain_bullet (pt : str) : Prop :=
  pt <> [] /\ ~ In LF pt
  /\ trimmed (fun c => mem c Main.markers) pt /\ trimmed isspace pt.

(** ** Predicates on the chat session *)

(** The text of the turn the handler of lines 169-174 appends. *)
Definition error_text (e : exn) : str := u "Error: " ++ exn_str e.

(** The texts the loop of lines 155-161 and its handler leave in the
    history: the renderings up to the first item that fails, then the error. *)
Fixpoint rendered_until_error (items : list value) : list str :=
  match items with
  | [] => []
  | item :: rest =>
      match UI.format_response item with
      | Return response_text => response_text :: rendered_until_error rest
      | Raise e => [error_text e]
      end
  end.

(** The texts of the assistant turns that answer one agent run. *)
Definition reply_texts (out : result value) : list str :=
  match out with
  | Raise e => [error_text e]
  | Return (VList items) => rendered_until_error items
  | Return final_output =>
      match UI.format_response final_output with
      | Return response_text => [response_text]
      | Raise e => [error_text e]
      end
  end.

(** [s'] is [s] with the turns [new] appended to the history; the thread,
    the user context and the pending message are those of [s]. *)
Definition extends (s s' : Chat.Session) (new : list Chat.ChatTurn) : Prop :=
  Chat.chat_history s' = Chat.chat_history s ++ new
  /\ Chat.thread_id s' = Chat.thread_id s
  /\ Chat.user_context s' = Chat.user_context s
  /\ Chat.processing_message s' = Chat.processing_message s.

Definition by_assistant (t : Chat.ChatTurn) : Prop := Chat.role t = u "assistant".

(** The widget values of a run in which the user submits [text]. *)
Definition submit (s : Chat.Session) (text : str) : Chat.Widgets :=
  {| Chat.selected_topics := Main.preferred_topics (Chat.user_context s);
     Chat.save_clicked := false; Chat.new_session_clicked := false;
     Chat.user_prompt := Some text |}.

(** Sample session, world and agent runs. *)
Definition sample_world : Chat.World :=
  {| Chat.clock := {| Main.reads := 0; Main.reading := fun n => (3600 * 13 + 60 * Z.of_nat n)%Z |};
     Chat.uuids_drawn := 0;
     Chat.uuid_at := fun n => u "uuid-" ++ of_Z (Z.of_nat n) |}.

Definition sample_session : Chat.Session :=
  {| Chat.chat_history := []; Chat.thread_id := u "t";
     Chat.user_context := {| Main.user_id := u "news_user_001";
                             Main.preferred_topics := [u "tech"];
                             Main.session_start := 0%Z |};
     Chat.processing_message := None |}.

Definition pending_session : Chat.Session :=
  Chat.set_processing_message sample_session (Some (u "hi")).

(** An agent run that returns two renderable items around one that is not. *)
Definition run_bad_middle : Chat.runner :=
  fun _ _ => Return (VList [VStr (u "one"); headline_only; VStr (u "three")]).

Definition run_empty_list : Chat.runner := fun _ _ => Return (VList []).

Definition run_text : Chat.runner := fun _ _ => Return (VStr (u "hello")).

(** * Properties *)

Section TextFacts.

Lemma str_eqb_eq (a b : str) : str_eqb a b = true <-> a = b.
Proof.
  revert b; induction a as [|x a IH]; intros [|y b]; simpl; split;
    try congruence; try reflexivity.
  - intros H. apply andb_prop in H as [Hx Hab].
    apply N.eqb_eq in Hx. apply IH in Hab. congruence.
  - intros H. injection H as -> ->.
    rewrite N.eqb_refl. simpl. now apply IH.
Qed.

Lemma str_eqb_refl (a : str) : str_eqb a a = true.
Proof. now apply str_eqb_eq. Qed.

End TextFacts.

(** ** Startup configuration *)

Section Startup.

Lemma unset_iff (x : option str) : Main.unset x = true <-> x = None \/ x = Some [].
Proof.
  destruct x as [[|c s]|]; simpl; split; intros H; auto; try discriminate;
    destruct H; discriminate.
Qed.

Lemma load_settings_raises getenv :
  Main.load_settings getenv = Raise Main.config_error <->
  exists name, In name required_names /\ Main.unset (getenv name) = true.
Proof.
  unfold Main.load_settings, required_names. split.
  - destruct (Main.unset (getenv (u "BASE_URL"))) eqn:E1;
      [intros _; exists (u "BASE_URL"); simpl; auto|].
    destruct (Main.unset (getenv (u "API_KEY"))) eqn:E2;
      [intros _; exists (u "API_KEY"); simpl; auto|].
    destruct (Main.unset (getenv (u "MODEL_NAME"))) eqn:E3;
      [intros _; exists (u "MODEL_NAME"); simpl; auto|].
    simpl. discriminate.
  - intros (name & Hin & Hu).
    simpl in Hin. destruct Hin as [<-|[<-|[<-|[]]]]; rewrite Hu;
      rewrite ?orb_true_r; reflexivity.
Qed.

Lemma required_iff name : required name <-> In name required_names.
Proof.
  split.
  - intros Hreq.
    destruct (existsb (str_eqb name) required_names) eqn:E.
    + apply existsb_exists in E as (k & Hin & Hk).
      apply str_eqb_eq in Hk. now subst.
    + exfalso.
      assert (Hnone : env_without name name = None)
        by (unfold env_without; now rewrite str_eqb_refl).
      specialize (Hreq _ Hnone).
      apply load_settings_raises in Hreq as (k & Hin & Hu).
      unfold env_without in Hu.
      destruct (str_eqb k name) eqn:Ek; [|discriminate].
      apply str_eqb_eq in Ek. subst k.
      assert (existsb (str_eqb name) required_names = true)
        by (apply existsb_exists; exists name; split; [assumption|apply str_eqb_refl]).
      congruence.
  - intros Hin getenv Hnone. apply load_settings_raises.
    exists name. split; [assumption|]. now rewrite Hnone.
Qed.

End Startup.

(** C7, as stated, fails twice on the code.  A setting can be present and
    startup still fails: with BASE_URL set to the empty text and the two
    other names set, [load_settings] raises.  And no four different names
    are required: the check of line 28 reads three. *)
Lemma startup_four_settings_counterexample :
  (env_empty_base_url (u "BASE_URL") <> None
   /\ env_empty_base_url (u "API_KEY") <> None
   /\ env_empty_base_url (u "MODEL_NAME") <> None
   /\ Main.load_settings env_empty_base_url = Raise Main.config_error)
  /\ ~ (exists names, NoDup names /\ List.length names = 4
                      /\ Forall required names).
Proof.
  split.
  - repeat split; try (vm_compute; discriminate).
  - intros (names & Hnd & Hlen & Hall).
    assert (Hincl : incl names required_names).
    { intros k Hk. apply required_iff.
      rewrite Forall_forall in Hall. now apply Hall. }
    pose proof (NoDup_incl_length Hnd Hincl) as Hle.
    rewrite Hlen in Hle. simpl in Hle. lia.
Qed.

(** C7, amended: the required settings are the three names BASE_URL,
    API_KEY and MODEL_NAME, not four.  When one of them is missing or empty,
    module initialisation always raises: the exception of Logfire's setup
    (lines 15-16) when that raises, the ValueError of line 29 when it returns.
    When Logfire's setup returns, the ValueError is raised exactly when one of
    the three is missing or empty, and otherwise initialisation returns the six
    settings as the environment gives them. *)
Theorem startup_requires_three_settings :
  (forall name, startup_requires name <-> In name required_names)
  /\ (forall configure instrument getenv,
        (exists name, In name required_names
                      /\ (getenv name = None \/ getenv name = Some [])) ->
        exists e, Main.module_init configure instrument getenv = Raise e)
  /\ (forall configure instrument getenv e,
        configure = Raise e \/ (configure = Return tt /\ instrument = Raise e) ->
        Main.module_init configure instrument getenv = Raise e)
  /\ (forall getenv,
        Main.module_init (Return tt) (Return tt) getenv = Raise Main.config_error
        <-> exists name, In name required_names
                         /\ (getenv name = None \/ getenv name = Some []))
  /\ (forall getenv,
        (forall name, In name required_names ->
                      exists c s, getenv name = Some (c :: s)) ->
        Main.module_init (Return tt) (Return tt) getenv =
        Return {| Main.BASE_URL := getenv (u "BASE_URL");
                  Main.API_KEY := getenv (u "API_KEY");
                  Main.MODEL_NAME := getenv (u "MODEL_NAME");
                  Main.GNEWS_API_KEY := getenv (u "GNEWS_API_KEY");
                  Main.GOOGLE_API_KEY := getenv (u "GOOGLE_API_KEY");
                  Main.SEARCH_ENGINE_ID := getenv (u "SEARCH_ENGINE_ID") |}).
Proof.
  assert (Hfatal : forall configure instrument getenv,
            (exists name, In name required_names
                          /\ (getenv name = None \/ getenv name = Some [])) ->
            exists e, Main.module_init configure instrument getenv = Raise e).
  { intros configure instrument getenv (name & Hin & Hunset).
    unfold Main.module_init.
    destruct configure as [[]|e]; cbn [bind]; [|eauto].
    destruct instrument as [[]|e]; cbn [bind]; [|eauto].
    exists Main.config_error. apply load_settings_raises.
    exists name. split; [assumption|]. now apply unset_iff. }
  split; [|split; [exact Hfatal|split; [|split]]].
  - intros name. split.
    + intros Hreq. apply required_iff. intros getenv Hnone.
      destruct (Hreq (Return tt) (Return tt) getenv Hnone) as (e & He).
      change (Main.module_init (Return tt) (Return tt) getenv)
        with (Main.load_settings getenv) in He.
      unfold Main.load_settings in *.
      destruct (Main.unset _ || Main.unset _ || Main.unset _);
        [reflexivity|discriminate].
    + intros Hin configure instrument getenv Hnone.
      apply Hfatal. exists name. auto.
  - intros configure instrument getenv e [->|[-> ->]]; reflexivity.
  - intros getenv.
    change (Main.module_init (Return tt) (Return tt) getenv)
      with (Main.load_settings getenv).
    rewrite load_settings_raises.
    split; intros (name & Hin & H); exists name; split; auto;
      now apply unset_iff.
  - intros getenv Hset.
    change (Main.module_init (Return tt) (Return tt) getenv)
      with (Main.load_settings getenv).
    unfold Main.load_settings.
    destruct (Hset (u "BASE_URL")) as (c1 & s1 & ->); [simpl; auto|].
    destruct (Hset (u "API_KEY")) as (c2 & s2 & ->); [simpl; auto|].
    destruct (Hset (u "MODEL_NAME")) as (c3 & s3 & ->); [simpl; auto|].
    reflexivity.
Qed.

(** The amended statement at three starts: API_KEY missing, Logfire not
    configured with every name set, and everything in place. *)
Lemma startup_requires_three_settings_witness :
  startup_requires (u "MODEL_NAME")
  /\ Main.module_init (Return tt) (Return tt) (env_without (u "API_KEY"))
     = Raise Main.config_error
  /\ (exists e, Main.module_init (Raise logfire_not_configured) (Return tt)
                  (env_without (u "API_KEY")) = Raise e)
  /\ Main.module_init (Raise logfire_not_configured) (Return tt)
       (fun _ => Some (u "x")) = Raise logfire_not_configured
  /\ exists s, Main.module_init (Return tt) (Return tt) (fun _ => Some (u "x"))
               = Return s.
Proof.
  destruct startup_requires_three_settings
    as (Hreq & Hfatal & Hlogfire & Hraise & Hok).
  split; [|split; [|split; [|split]]].
  - apply Hreq. simpl. auto.
  - apply Hraise. exists (u "API_KEY"). split; [simpl; auto|].
    left. reflexivity.
  - apply Hfatal. exists (u "API_KEY"). split; [simpl; auto|].
    left. reflexivity.
  - apply Hlogfire. left. reflexivity.
  - eexists. apply Hok. intros name _. exists 120%N, []. reflexivity.
Defined.

(** ** UserContext *)

(** C8: the constructed context holds the supplied user id; its topics are
    the supplied list, or the empty list when none was supplied; its session
    start is the supplied time, or the clock's reading at construction when
    none was supplied; and the clock is read only in that last case. *)
Theorem new_UserContext_defaults user_id topics start (c : Main.Clock) :
  let '(ctx, c') := Main.new_UserContext user_id topics start c in
  Main.user_id ctx = user_id
  /\ Main.preferred_topics ctx = match topics with
                                 | None => []
                                 | Some l => l
                                 end
  /\ Main.session_start ctx = match start with
                              | None => Main.reading c (Main.reads c)
                              | Some t => t
                              end
  /\ c' = match start with
          | None => snd (Main.datetime_now c)
          | Some _ => c
          end.
Proof.
  unfold Main.new_UserContext.
  destruct topics, start; simpl; repeat split.
Qed.

(** ** The tool functions *)

Section Json.

Lemma json_dumps_json v : is_json v = true -> json_dumps v = Return v.
Proof. unfold json_dumps. now intros ->. Qed.

Lemma json_dumps_inv v w : json_dumps v = Return w -> w = v /\ is_json v = true.
Proof.
  unfold json_dumps. destruct (is_json v); [|discriminate].
  intros H. injection H as <-. auto.
Qed.


Lemma is_json_lookup d k v :
  is_json (VDict d) = true -> lookup k d = Some v -> is_json v = true.
Proof.
  simpl. induction d as [|[k' v'] d IH]; simpl; [discriminate|].
  intros H. apply andb_prop in H as [Hv Hd].
  destruct (str_eqb k k'); [intros E; now injection E as <-|auto].
Qed.

Lemma is_json_dict_get d k default :
  is_json (VDict d) = true -> is_json default = true ->
  is_json (dict_get d k default) = true.
Proof.
  intros Hd Hdef. unfold dict_get.
  destruct (lookup k d) eqn:E; [eapply is_json_lookup; eauto|assumption].
Qed.

End Json.

Section Trending.

Variable topic : option str.


Lemma article_item_inv i a item :
  Main.article_item topic (i, a) = Return item ->
  exists h s m, item = Main.news_item h s (Main.opt_value topic) m (i + 1).
Proof.
  unfold Main.article_item.
  destruct a; simpl; try discriminate.
  destruct (dict_get d (u "source") (VDict [])); simpl; try discriminate.
  intros H. injection H as <-. eauto.
Qed.






Lemma degraded_json h s m :
  json_dumps (VList [Main.news_item (VStr h) (VStr s) (Main.opt_value topic)
                                    (VStr m) 1])
  = Return (VList [Main.news_item (VStr h) (VStr s) (Main.opt_value topic)
                                  (VStr m) 1]).
Proof. apply json_dumps_json. now destruct topic. Qed.


End Trending.

Section Outcomes.

Variable requests_get : Main.transport.

(** Every run of [get_trending_news] ends in one of two ways: a single
    degraded item, or the list built from the articles of a 200 response. *)
Lemma get_trending_news_outcome key topic category :
  degraded_batch topic (Main.get_trending_news requests_get key topic category)
  \/ exists response body articles elems results,
       requests_get (Main.trending_request key topic) = Return response
       /\ Main.status_code response = 200%Z
       /\ Main.json response = Return body
       /\ meth_get body (u "articles") (VList []) = Return articles
       /\ truthy articles = true
       /\ iterate articles = Return elems
       /\ mapM (Main.article_item topic) (enumerate elems) = Return results
       /\ Main.get_trending_news requests_get key topic category
          = Return (VList results).
Proof.
  unfold Main.get_trending_news, degraded_batch.
  destruct (requests_get _) as [response|e] eqn:Eget; cbn [bind try_except];
    [|left; rewrite degraded_json; eauto].
  destruct (Main.status_code response =? 200)%Z eqn:Estatus; cbn [negb];
    [|left; rewrite degraded_json; cbn [try_except]; eauto].
  destruct (Main.json response) as [body|e] eqn:Ejson; cbn [bind try_except];
    [|left; rewrite degraded_json; eauto].
  destruct (meth_get body _ _) as [articles|e] eqn:Earts; cbn [bind try_except];
    [|left; rewrite degraded_json; eauto].
  destruct (truthy articles) eqn:Etruthy; cbn [negb];
    [|left; rewrite degraded_json; cbn [try_except]; eauto].
  destruct (iterate articles) as [elems|e] eqn:Eiter; cbn [bind try_except];
    [|left; rewrite degraded_json; eauto].
  destruct (mapM _ (enumerate elems)) as [results|e] eqn:Emap;
    cbn [bind try_except]; [|left; rewrite degraded_json; eauto].
  destruct (json_dumps (VList results)) as [w|e] eqn:Edumps; cbn [try_except];
    [|left; rewrite degraded_json; eauto].
  right. apply json_dumps_inv in Edumps as [-> _].
  apply Z.eqb_eq in Estatus.
  exists response, body, articles, elems, results. repeat split; auto.
Qed.

Lemma fact_check_error_json text :
  json_dumps (Main.fact_check_record text []) = Return (Main.fact_check_record text []).
Proof. reflexivity. Qed.

(** Every run of [fact_check_claim] returns a fact-check record. *)
Lemma fact_check_claim_outcome k1 k2 claim :
  exists verdict sources,
    Main.fact_check_claim requests_get k1 k2 claim
    = Return (Main.fact_check_record verdict sources).
Proof.
  unfold Main.fact_check_claim.
  destruct (requests_get _) as [response|e]; cbn [bind try_except];
    [|rewrite fact_check_error_json; eauto].
  destruct (Main.json response) as [body|e]; cbn [bind try_except];
    [|rewrite fact_check_error_json; eauto].
  destruct (meth_get body _ _) as [items|e]; cbn [bind try_except];
    [|rewrite fact_check_error_json; eauto].
  destruct (slice_to 3 items) as [first3|e]; cbn [bind try_except];
    [|rewrite fact_check_error_json; eauto].
  destruct (iterate first3) as [elems|e]; cbn [bind try_except];
    [|rewrite fact_check_error_json; eauto].
  destruct (mapM _ elems) as [sources|e]; cbn [bind try_except];
    [|rewrite fact_check_error_json; eauto].
  destruct (json_dumps _) as [w|e] eqn:Edumps; cbn [try_except];
    [|rewrite fact_check_error_json; eauto].
  apply json_dumps_inv in Edumps as [-> _]. eauto.
Qed.

End Outcomes.

Section Summaries.

Lemma summary_record_json topic bullets :
  json_dumps (Main.summary_record topic bullets)
  = Return (Main.summary_record topic bullets).
Proof.
  apply json_dumps_json. unfold Main.summary_record.
  cbn [is_json forallb snd]. rewrite andb_true_r.
  induction bullets; simpl; auto.
Qed.

(** Every run of the summarizer, with any client, returns a summary record. *)
Lemma summarize_news_with_outcome client model article_text :
  exists topic bullets,
    Main.summarize_news_with client model article_text
    = Return (Main.summary_record topic bullets).
Proof.
  unfold Main.summarize_news_with.
  destruct (Main.create client model _) as [response|e]; cbn [bind try_except];
    [|rewrite summary_record_json; eauto].
  destruct (Main.get_choices response) as [cs|e]; cbn [bind try_except];
    [|rewrite summary_record_json; eauto].
  destruct (Main.first_content_stripped cs) as [t|e]; cbn [bind try_except];
    rewrite summary_record_json; cbn [try_except]; eauto.
Qed.

(** With a client that returns the completion itself, a completion whose
    first choice has the content [content] gives the parsed lines. *)
Lemma summarize_news_with_completion client model article_text content rest :
  (forall prompt, Main.create client model prompt
                  = Return (Main.Completion
                              {| Main.choices := Some content :: rest |})) ->
  Main.summarize_news_with client model article_text
  = Return (Main.summary_record (u "Custom Article Summary")
                                (Main.summary_lines (strip content))).
Proof.
  intros Hcreate. unfold Main.summarize_news_with.
  rewrite Hcreate. cbn [bind Main.get_choices Main.choices
                        Main.first_content_stripped].
  rewrite summary_record_json. reflexivity.
Qed.

(** With the module's client the call gives a coroutine, whose [choices]
    attribute does not exist: the handler runs, whatever the provider would
    have answered. *)
Lemma summarize_news_coroutine p model article_text :
  Main.summarize_news p model article_text
  = Return (Main.summary_record (u "Summarization Error")
      [u "Failed to summarize article: 'coroutine' object has no attribute 'choices'"]).
Proof. reflexivity. Qed.

End Summaries.

(** ** The three tools *)

(** C1, on the code: [fact_check_claim] does not convert a non-2xx answer.
    A 403 answer of the search provider whose body is the JSON error object
    gives the record "Unverified claim" with no source, the same record as a
    200 answer without hits: no field tells the failure.  The sibling tool
    [get_trending_news] tests the status (line 79) and turns the same answer
    into the single item whose summary is "API error 403: Forbidden". *)
Theorem fact_check_status_not_checked :
  Main.fact_check_claim
    (stub_response 403 (u "Forbidden") (Return (VDict forbidden_body)))
    None None (u "Did Apple acquire OpenAI?")
  = Return (VDict [(u "is_true", VNone);
                   (u "verdict", VStr (u "Unverified claim"));
                   (u "sources", VList [])])
  /\ Main.fact_check_claim
       (stub_response 200 (u "{}") (Return (VDict [])))
       None None (u "Did Apple acquire OpenAI?")
     = Return (VDict [(u "is_true", VNone);
                      (u "verdict", VStr (u "Unverified claim"));
                      (u "sources", VList [])])
  /\ Main.get_trending_news
       (stub_response 403 (u "Forbidden") (Return (VDict forbidden_body)))
       None (Some (u "tech")) None
     = Return (VList [VDict [(u "headline", VStr (u "Failed to fetch news"));
                             (u "source", VStr (u "System"));
                             (u "category", VStr (u "tech"));
                             (u "summary", VStr (u "API error 403: Forbidden"));
                             (u "rank", VInt 1)]]).
Proof. repeat split. Qed.

Section TrendingItems.





End TrendingItems.




Section FactCheck.

Lemma mapM_links elems : forall links,
  map link_of elems = map Some links ->
  mapM (fun item => getitem item (u "link")) elems = Return links.
Proof.
  induction elems as [|item elems IH]; intros [|l links]; simpl;
    try discriminate; [reflexivity|].
  intros H. injection H as Hitem Hrest.
  rewrite (IH _ Hrest).
  destruct item; simpl in Hitem; try discriminate.
  simpl. rewrite Hitem. reflexivity.
Qed.

Lemma links_json elems : forall links,
  is_json (VList elems) = true ->
  map link_of elems = map Some links ->
  is_json (VList links) = true.
Proof.
  induction elems as [|item elems IH]; intros [|l links]; simpl;
    try discriminate; [reflexivity|].
  intros Hj H. apply andb_prop in Hj as [Hitem Hrest].
  injection H as Hl Hlinks.
  destruct item; simpl in Hl; try discriminate.
  rewrite (is_json_lookup _ _ _ Hitem Hl). simpl.
  exact (IH _ Hrest Hlinks).
Qed.

Lemma is_json_firstn n l :
  is_json (VList l) = true -> is_json (VList (firstn n l)) = true.
Proof.
  simpl. revert n. induction l as [|x l IH]; intros [|n]; simpl; auto.
  intros H. apply andb_prop in H as [-> Hl]. simpl. auto.
Qed.

End FactCheck.

(** C2: when the search answers with a JSON body whose item list is
    [items] (the empty list when the body has no "items" key) and each of the
    first three items has a link, the record returned has [is_true] None,
    as [sources] the links of the first min(3, n) items in the provider's
    order, and as [verdict] "Unverified claim" when there is no item and
    "Supporting sources found" when there is one or more. *)
Theorem fact_check_verdict_and_sources
    requests_get k1 k2 claim response body items links :
  requests_get (Main.fact_check_request k1 k2 claim) = Return response ->
  Main.json response = Return (VDict body) ->
  is_json (VDict body) = true ->
  dict_get body (u "items") (VList []) = VList items ->
  map link_of (firstn 3 items) = map Some links ->
  Main.fact_check_claim requests_get k1 k2 claim
  = Return (VDict [(u "is_true", VNone);
                   (u "verdict", VStr match items with
                                      | [] => u "Unverified claim"
                                      | _ :: _ => u "Supporting sources found"
                                      end);
                   (u "sources", VList links)])
  /\ List.length links = Nat.min 3 (List.length items)
  /\ (items = [] -> links = []).
Proof.
  intros Hget Hjson Hbody Hitems Hlinks.
  assert (Hji : is_json (VList items) = true).
  { rewrite <- Hitems. now apply is_json_dict_get. }
  pose proof (links_json _ _ (is_json_firstn 3 _ Hji) Hlinks) as Hjl.
  split; [|split].
  - unfold Main.fact_check_claim. rewrite Hget. cbn [bind]. rewrite Hjson.
    cbn [bind meth_get]. rewrite Hitems.
    cbn [slice_to bind iterate]. rewrite (mapM_links _ _ Hlinks). cbn [bind].
    unfold Main.fact_check_record.
    rewrite json_dumps_json.
    + destruct items; reflexivity.
    + cbn [is_json forallb snd andb]. simpl in Hjl. now rewrite Hjl.
  - apply (f_equal (@List.length _)) in Hlinks.
    rewrite !length_map, length_firstn in Hlinks. lia.
  - intros ->. simpl in Hlinks. now destruct links.
Qed.

(** Four items from the provider: the first three links, in order. *)
Lemma fact_check_verdict_and_sources_witness :
  Main.fact_check_claim
    (stub_response 200 [] (Return (VDict [(u "items", VList four_items)])))
    None None (u "Did Apple acquire OpenAI?")
  = Return (VDict [(u "is_true", VNone);
                   (u "verdict", VStr (u "Supporting sources found"));
                   (u "sources", VList [VStr (u "http://a"); VStr (u "http://b");
                                        VStr (u "http://c")])]).
Proof.
  apply (fact_check_verdict_and_sources _ None None (u "Did Apple acquire OpenAI?")
           {| Main.status_code := 200; Main.text := [];
              Main.json := Return (VDict [(u "items", VList four_items)]) |}
           [(u "items", VList four_items)] four_items
           [VStr (u "http://a"); VStr (u "http://b"); VStr (u "http://c")]);
    reflexivity.
Defined.

(** C10: when the search provider raises [e], the record returned has the
    verdict "Error: " followed by [str(e)], which is neither of the two
    documented verdicts, with [is_true] None and no sources. *)
Theorem fact_check_error_verdict requests_get k1 k2 claim e :
  requests_get (Main.fact_check_request k1 k2 claim) = Raise e ->
  Main.fact_check_claim requests_get k1 k2 claim
  = Return (VDict [(u "is_true", VNone);
                   (u "verdict", VStr (u "Error: " ++ exn_str e));
                   (u "sources", VList [])])
  /\ firstn 7 (u "Error: " ++ exn_str e) = u "Error: "
  /\ u "Error: " ++ exn_str e <> u "Unverified claim"
  /\ u "Error: " ++ exn_str e <> u "Supporting sources found".
Proof.
  intros Hget. repeat split.
  - unfold Main.fact_check_claim. rewrite Hget. reflexivity.
  - intros H. vm_compute in H. discriminate.
  - intros H. vm_compute in H. discriminate.
Qed.

(** A connection error is such an execution. *)
Lemma fact_check_error_verdict_witness :
  Main.fact_check_claim (failing_transport connection_refused) None None (u "x")
  = Return (VDict [(u "is_true", VNone);
                   (u "verdict", VStr (u "Error: connection refused"));
                   (u "sources", VList [])])
  /\ u "Error: connection refused" <> u "Unverified claim"
  /\ u "Error: connection refused" <> u "Supporting sources found".
Proof.
  destruct (fact_check_error_verdict (failing_transport connection_refused)
              None None (u "x") connection_refused eq_refl)
    as (Hrun & _ & Hu & Hs).
  exact (conj Hrun (conj Hu Hs)).
Defined.

Section Strip.

Variable p : char -> bool.

Lemma drop_while_split s :
  exists pre, s = pre ++ drop_while p s /\ forallb p pre = true.
Proof.
  induction s as [|c s (pre & Hs & Hpre)]; simpl.
  - exists []. auto.
  - destruct (p c) eqn:Ec.
    + exists (c :: pre). simpl. rewrite Ec, Hpre. split; [congruence|reflexivity].
    + exists []. auto.
Qed.

Lemma drop_while_head s : starts_with p (drop_while p s) = false.
Proof.
  induction s as [|c s IH]; simpl; [reflexivity|].
  destruct (p c) eqn:Ec; [assumption|]. simpl. assumption.
Qed.

Lemma drop_while_fixed s : starts_with p s = false -> drop_while p s = s.
Proof. destruct s as [|c s]; simpl; [reflexivity|]. now intros ->. Qed.

Lemma drop_while_keeps c s :
  In c s -> p c = false -> In c (drop_while p s).
Proof.
  intros Hin Hc. destruct (drop_while_split s) as (pre & Hs & Hpre).
  rewrite Hs in Hin. apply in_app_or in Hin as [Hin|Hin]; [|assumption].
  rewrite forallb_forall in Hpre. apply Hpre in Hin. congruence.
Qed.

Lemma drop_while_incl c s : In c (drop_while p s) -> In c s.
Proof.
  intros Hin. destruct (drop_while_split s) as (pre & Hs & _).
  rewrite Hs. apply in_or_app. now right.
Qed.

(** A prefix of a text that does not begin with [p] does not either. *)
Lemma starts_with_prefix a b :
  starts_with p (a ++ b) = false -> starts_with p a = false.
Proof. destruct a; simpl; auto. Qed.

Lemma strip_by_trimmed s : trimmed p (strip_by p s).
Proof.
  unfold trimmed, strip_by. split.
  - destruct (drop_while_split (rev (drop_while p s))) as (pre & Hs & _).
    apply (f_equal (@rev _)) in Hs. rewrite rev_involutive, rev_app_distr in Hs.
    pose proof (drop_while_head s) as Hh. rewrite Hs in Hh.
    now apply starts_with_prefix in Hh.
  - rewrite rev_involutive. apply drop_while_head.
Qed.

Lemma strip_by_fixed s : trimmed p s -> strip_by p s = s.
Proof.
  intros [Hh Hl]. unfold strip_by.
  rewrite (drop_while_fixed _ Hh), (drop_while_fixed _ Hl).
  apply rev_involutive.
Qed.

Lemma strip_by_idempotent s : strip_by p (strip_by p s) = strip_by p s.
Proof. apply strip_by_fixed, strip_by_trimmed. Qed.

Lemma strip_by_keeps c s : In c s -> p c = false -> In c (strip_by p s).
Proof.
  intros Hin Hc. unfold strip_by. apply in_rev. rewrite rev_involutive.
  apply drop_while_keeps; [|assumption].
  apply in_rev. rewrite rev_involutive. now apply drop_while_keeps.
Qed.

Lemma strip_by_incl c s : In c (strip_by p s) -> In c s.
Proof.
  unfold strip_by. intros Hin. apply in_rev in Hin.
  apply drop_while_incl in Hin. apply in_rev in Hin.
  now apply drop_while_incl in Hin.
Qed.

End Strip.

Section SummaryLines.

Lemma starts_with_weaken (q r : char -> bool) s :
  (forall c, In c s -> r c = true -> q c = true) ->
  starts_with q s = false -> starts_with r s = false.
Proof.
  destruct s as [|c s]; simpl; auto.
  intros H Hq. destruct (r c) eqn:Er; [|reflexivity].
  rewrite (H c (or_introl eq_refl) Er) in Hq. discriminate.
Qed.

(** A line whose only whitespace is the space character: once the markers
    are stripped, nothing is left for [strip()] to remove. *)
Lemma strip_after_markers line :
  (forall c, In c line -> isspace c = true -> c = 32%N) ->
  strip (strip_chars Main.markers line) = strip_chars Main.markers line.
Proof.
  intros Hws. apply strip_by_fixed.
  destruct (strip_by_trimmed (fun c => mem c Main.markers) line) as [Hh Hl].
  fold (strip_chars Main.markers line) in Hh, Hl.
  assert (Hsp : forall c, In c (strip_chars Main.markers line) ->
                          isspace c = true -> mem c Main.markers = true).
  { intros c Hin Hc. apply strip_by_incl in Hin.
    now rewrite (Hws c Hin Hc). }
  split.
  - apply (starts_with_weaken (fun c => mem c Main.markers) isspace);
      [exact Hsp|exact Hh].
  - apply (starts_with_weaken (fun c => mem c Main.markers) isspace);
      [|exact Hl].
    intros c Hin. apply Hsp. now apply in_rev.
Qed.

End SummaryLines.

(** C4, on the code: the bullet points are not the cleaned lines of the
    completion.  With the module's client no completion reaches line 148 (the
    defect of C5): whatever the endpoint answers, here the line "---", the
    tool returns the one bullet of the error summary.  And line 148 itself,
    applied to a completion text, tests [line.strip()] before the markers are
    removed: the line "---" passes the test and is then stripped to the empty
    text, and in "a\n\t- b" the dash of the second line follows a tab, which
    [strip("-\u2022 ")] does not pass over, so the bullet "- b" keeps it. *)
Theorem summary_lines_empty_and_marked_bullets :
  Main.summarize_news (stub_completion rule_line) (Some (u "m")) (u "article")
  = Return (VDict [(u "topic", VStr (u "Summarization Error"));
                   (u "bullet_points",
                    VList [VStr (u "Failed to summarize article: 'coroutine' object has no attribute 'choices'")])])
  /\ Main.summary_lines (strip rule_line) = [[]]
  /\ ~ Forall clean_bullet (Main.summary_lines (strip rule_line))
  /\ Main.summary_lines (strip tab_indented) = [u "a"; u "- b"]
  /\ ~ Forall clean_bullet (Main.summary_lines (strip tab_indented)).
Proof.
  split; [reflexivity|]. split; [reflexivity|]. split; [|split; [reflexivity|]].
  - intros H. inversion H as [|e l [Hne _] _]; subst. now apply Hne.
  - intros H. inversion H as [|e l _ Hrest]; subst.
    inversion Hrest as [|e' l' [_ Hstart] _]; subst. discriminate.
Qed.

(** C5, on the code: with the module's client the stubbed completion
    "- point one\n- point two\n- point three" never reaches the parsing.
    [create] of [AsyncOpenAI] is called without [await], the coroutine it
    returns has no [choices], and the handler answers with the error summary.
    The same completion through a client that returns it directly gives the
    three points. *)
Theorem summarize_three_points_coroutine :
  Main.summarize_news (stub_completion three_points) (Some (u "m"))
    (u "OpenAI expands GPT access to new platforms")
  = Return (VDict [(u "topic", VStr (u "Summarization Error"));
                   (u "bullet_points",
                    VList [VStr (u "Failed to summarize article: 'coroutine' object has no attribute 'choices'")])])
  /\ Main.summarize_news_with (Main.OpenAI (stub_completion three_points))
       (Some (u "m")) (u "OpenAI expands GPT access to new platforms")
     = Return (VDict [(u "topic", VStr (u "Custom Article Summary"));
                      (u "bullet_points",
                       VList [VStr (u "point one"); VStr (u "point two");
                              VStr (u "point three")])]).
Proof. split; reflexivity. Qed.

(** ** The renderer *)

Section Renderer.

Lemma getitem_lookup d k v : lookup k d = Some v -> getitem (VDict d) k = Return v.
Proof. simpl. now intros ->. Qed.

Lemma contains_lookup d k v : lookup k d = Some v -> contains k d = true.
Proof. unfold contains. now intros ->. Qed.

Lemma contains_none d k : lookup k d = None -> contains k d = false.
Proof. unfold contains. now intros ->. Qed.

Lemma format_trending output d h s m :
  UI.as_mapping output = VDict d ->
  lookup (u "headline") d = Some h ->
  lookup (u "source") d = Some s ->
  lookup (u "summary") d = Some m ->
  UI.format_response output = Return (trending_text h s m).
Proof.
  intros Hmap Hh Hs Hm. unfold UI.format_response. rewrite Hmap.
  rewrite (contains_lookup _ _ _ Hh).
  rewrite (getitem_lookup _ _ _ Hh), (getitem_lookup _ _ _ Hs),
    (getitem_lookup _ _ _ Hm).
  reflexivity.
Qed.

Lemma format_verdict output d v srcs :
  UI.as_mapping output = VDict d ->
  lookup (u "headline") d = None ->
  lookup (u "verdict") d = Some v ->
  iterate (dict_get d (u "sources") (VList [])) = Return srcs ->
  UI.format_response output = Return (verdict_text v srcs).
Proof.
  intros Hmap Hh Hv Hsrcs. unfold UI.format_response. rewrite Hmap.
  rewrite (contains_none _ _ Hh), (contains_lookup _ _ _ Hv), Hsrcs.
  cbn [bind]. rewrite (getitem_lookup _ _ _ Hv). reflexivity.
Qed.

Lemma format_summary output d bp pts t :
  UI.as_mapping output = VDict d ->
  lookup (u "headline") d = None ->
  lookup (u "verdict") d = None ->
  lookup (u "bullet_points") d = Some bp ->
  iterate bp = Return pts ->
  lookup (u "topic") d = Some t ->
  UI.format_response output = Return (summary_text t pts).
Proof.
  intros Hmap Hh Hv Hbp Hpts Ht. unfold UI.format_response. rewrite Hmap.
  rewrite (contains_none _ _ Hh), (contains_none _ _ Hv),
    (contains_lookup _ _ _ Hbp), (getitem_lookup _ _ _ Hbp).
  cbn [bind]. rewrite Hpts. cbn [bind].
  rewrite (getitem_lookup _ _ _ Ht). reflexivity.
Qed.

Lemma format_fallback_dict output d :
  UI.as_mapping output = VDict d ->
  lookup (u "headline") d = None ->
  lookup (u "verdict") d = None ->
  lookup (u "bullet_points") d = None ->
  UI.format_response output = Return (py_str (VDict d)).
Proof.
  intros Hmap Hh Hv Hbp. unfold UI.format_response. rewrite Hmap.
  now rewrite (contains_none _ _ Hh), (contains_none _ _ Hv),
    (contains_none _ _ Hbp).
Qed.

Lemma format_fallback_other output :
  (forall d, UI.as_mapping output <> VDict d) ->
  UI.format_response output = Return (py_str (UI.as_mapping output)).
Proof.
  intros Hnd. unfold UI.format_response.
  destruct (UI.as_mapping output); try reflexivity.
  now destruct (Hnd d).
Qed.

End Renderer.

(** C6, as stated, fails on the code.  The fallback is not the text of
    every other input: an object that has a [__dict__] is replaced by that
    dict before anything is rendered, so [ValueError("boom")] is rendered as
    "{}" and not as "boom".  And a dict that has a headline field and no
    source field is not rendered at all: line 82 raises KeyError. *)
Lemma format_response_counterexample :
  (UI.format_response boom = Return (u "{}")
   /\ UI.format_response boom <> Return (py_str boom))
  /\ UI.format_response headline_only = Raise (KeyError (u "source")).
Proof.
  split; [split|]; try reflexivity.
  intros H. vm_compute in H. discriminate.
Qed.

(** C6, amended: [format_response] first replaces a pydantic model by its
    [model_dump()] and any other object that has a [__dict__] by that dict,
    and then dispatches on the keys of the dict it holds.  A TrendingNewsItem
    renders as headline, source and summary; a FactCheckResult as the verdict
    line and one bulleted link per source; a NewsSummary as the topic line and
    one bullet per point.  In general a dict with "headline", "source" and
    "summary" renders as a trending item; one without "headline" and with
    "verdict" as a fact check; one with neither and with "bullet_points" and
    "topic" as a summary.  A dict with none of the three keys, and any value
    that is not a dict after the replacement, renders as the text of the
    value after the replacement, which for a value with neither attribute is
    the text of the input itself.  The function is a function of its argument
    alone. *)
Theorem format_response_dispatch :
  (forall t : Main.TrendingNewsItem,
     UI.format_response (UI.of_TrendingNewsItem t)
     = Return (u "**" ++ Main.headline t ++ u "**" ++ [LF; LF] ++ u "_"
                 ++ Main.source t ++ u " " ++ [EN_DASH] ++ u " "
                 ++ Main.summary t))
  /\ (forall r : Main.FactCheckResult,
       UI.format_response (UI.of_FactCheckResult r)
       = Return (u "**Verdict:** " ++ Main.verdict r ++ [LF; LF]
                   ++ u "**Sources:**" ++ [LF]
                   ++ join [LF] (map (fun s => u "- [" ++ s ++ u "](" ++ s ++ u ")")
                                     (Main.sources r))))
  /\ (forall n : Main.NewsSummary,
       UI.format_response (UI.of_NewsSummary n)
       = Return (u "**Topic:** " ++ Main.topic n ++ [LF; LF]
                   ++ join [LF] (map (fun pt => u "- " ++ pt)
                                     (Main.bullet_points n))))
  /\ (forall output d h s m,
       UI.as_mapping output = VDict d ->
       lookup (u "headline") d = Some h ->
       lookup (u "source") d = Some s ->
       lookup (u "summary") d = Some m ->
       UI.format_response output = Return (trending_text h s m))
  /\ (forall output d v srcs,
       UI.as_mapping output = VDict d ->
       lookup (u "headline") d = None ->
       lookup (u "verdict") d = Some v ->
       iterate (dict_get d (u "sources") (VList [])) = Return srcs ->
       UI.format_response output = Return (verdict_text v srcs))
  /\ (forall output d bp pts t,
       UI.as_mapping output = VDict d ->
       lookup (u "headline") d = None ->
       lookup (u "verdict") d = None ->
       lookup (u "bullet_points") d = Some bp ->
       iterate bp = Return pts ->
       lookup (u "topic") d = Some t ->
       UI.format_response output = Return (summary_text t pts))
  /\ (forall output d,
       UI.as_mapping output = VDict d ->
       lookup (u "headline") d = None ->
       lookup (u "verdict") d = None ->
       lookup (u "bullet_points") d = None ->
       UI.format_response output = Return (py_str (VDict d)))
  /\ (forall output,
       (forall d, UI.as_mapping output <> VDict d) ->
       UI.format_response output = Return (py_str (UI.as_mapping output))).
Proof.
  split; [|split; [|split; [|split; [|split; [|split; [|split]]]]]].
  - intros t. reflexivity.
  - intros r.
    rewrite (format_verdict (UI.of_FactCheckResult r) _ (VStr (Main.verdict r))
               (map VStr (Main.sources r)) eq_refl eq_refl eq_refl eq_refl).
    unfold verdict_text. now rewrite map_map.
  - intros n.
    rewrite (format_summary (UI.of_NewsSummary n) _
               (VList (map VStr (Main.bullet_points n)))
               (map VStr (Main.bullet_points n)) (VStr (Main.topic n))
               eq_refl eq_refl eq_refl eq_refl eq_refl eq_refl).
    unfold summary_text. now rewrite map_map.
  - exact format_trending.
  - exact format_verdict.
  - exact format_summary.
  - exact format_fallback_dict.
  - exact format_fallback_other.
Qed.

(** Plain dicts with a headline, with a verdict and with bullet points, a
    dict with none of the keys, and a text. *)
Lemma format_response_dispatch_witness :
  UI.format_response
    (VDict [(u "headline", VStr (u "H")); (u "source", VStr (u "S"));
            (u "summary", VNone)])
  = Return (u "**H**" ++ [LF; LF] ++ u "_S " ++ [EN_DASH] ++ u " None")
  /\ UI.format_response
       (VDict [(u "verdict", VStr (u "ok"));
               (u "sources", VList [VStr (u "http://a")])])
     = Return (u "**Verdict:** ok" ++ [LF; LF] ++ u "**Sources:**" ++ [LF]
                 ++ u "- [http://a](http://a)")
  /\ UI.format_response
       (VDict [(u "topic", VStr (u "T"));
               (u "bullet_points", VList [VStr (u "a"); VStr (u "b")])])
     = Return (u "**Topic:** T" ++ [LF; LF] ++ u "- a" ++ [LF] ++ u "- b")
  /\ UI.format_response (VDict [(u "n", VInt 1)]) = Return (u "{'n': 1}")
  /\ UI.format_response (VStr (u "hello")) = Return (u "hello").
Proof.
  destruct format_response_dispatch as (_ & _ & _ & Ht & Hv & Hs & Hd & Ho).
  split; [|split; [|split; [|split]]].
  - apply (Ht _ [(u "headline", VStr (u "H")); (u "source", VStr (u "S"));
                 (u "summary", VNone)]
              (VStr (u "H")) (VStr (u "S")) VNone); reflexivity.
  - apply (Hv _ [(u "verdict", VStr (u "ok"));
                 (u "sources", VList [VStr (u "http://a")])]
              (VStr (u "ok")) [VStr (u "http://a")]); reflexivity.
  - apply (Hs _ [(u "topic", VStr (u "T"));
                 (u "bullet_points", VList [VStr (u "a"); VStr (u "b")])]
              (VList [VStr (u "a"); VStr (u "b")]) [VStr (u "a"); VStr (u "b")]
              (VStr (u "T"))); reflexivity.
  - apply (Hd _ [(u "n", VInt 1)]); reflexivity.
  - apply (Ho (VStr (u "hello"))). intros d. discriminate.
Defined.

(** * Further properties of main.py *)

Section TrendingEdges.

Variable topic : option str.

Lemma mapM_article_category elems : forall i results,
  mapM (Main.article_item topic) (enumerate_from i elems) = Return results ->
  Forall (has_category (Main.opt_value topic)) results.
Proof.
  induction elems as [|a elems IH]; intros i results;
    cbn [mapM enumerate_from].
  - intros H. injection H as <-. constructor.
  - destruct (Main.article_item topic (i, a)) as [item|e] eqn:Eitem;
      cbn [bind]; [|discriminate].
    destruct (mapM _ (enumerate_from (i + 1) elems)) as [rest|e] eqn:Erest;
      cbn [bind]; [|discriminate].
    intros H. injection H as <-. constructor; [|eauto].
    destruct (article_item_inv _ _ _ _ Eitem) as (h & s & m & ->).
    unfold has_category. do 4 eexists. reflexivity.
Qed.



End TrendingEdges.

(** X1: a 200 response whose body is a dict with no articles (the key
    missing, or its value an empty list, null, 0, an empty text or an empty
    dict) gives the single item "No news found" from "GNews" with rank 1,
    and not an error item. *)
Theorem trending_no_articles requests_get key topic category response body :
  requests_get (Main.trending_request key topic) = Return response ->
  Main.status_code response = 200%Z ->
  Main.json response = Return (VDict body) ->
  truthy (dict_get body (u "articles") (VList [])) = false ->
  Main.get_trending_news requests_get key topic category
  = Return (VList [VDict [(u "headline", VStr (u "No news found"));
                          (u "source", VStr (u "GNews"));
                          (u "category", Main.opt_value topic);
                          (u "summary",
                           VStr (u "No articles found for this topic."));
                          (u "rank", VInt 1)]]).
Proof.
  intros Hget Hstatus Hjson Hfalsy.
  unfold Main.get_trending_news. rewrite Hget. cbn [bind].
  rewrite Hstatus, Hjson. cbn [Z.eqb Pos.eqb negb bind meth_get].
  rewrite Hfalsy. cbn [negb]. rewrite degraded_json. reflexivity.
Qed.

Lemma trending_no_articles_witness :
  Main.get_trending_news (stub_response 200 [] (Return (VDict [])))
    None (Some (u "tech")) None
  = Return (VList [VDict [(u "headline", VStr (u "No news found"));
                          (u "source", VStr (u "GNews"));
                          (u "category", VStr (u "tech"));
                          (u "summary",
                           VStr (u "No articles found for this topic."));
                          (u "rank", VInt 1)]])
  /\ Main.get_trending_news
       (stub_response 200 [] (Return (VDict [(u "articles", VNone)])))
       None None None
     = Return (VList [VDict [(u "headline", VStr (u "No news found"));
                             (u "source", VStr (u "GNews"));
                             (u "category", VNone);
                             (u "summary",
                              VStr (u "No articles found for this topic."));
                             (u "rank", VInt 1)]]).
Proof.
  split.
  - apply (trending_no_articles _ None (Some (u "tech")) None
             {| Main.status_code := 200; Main.text := [];
                Main.json := Return (VDict []) |} []); reflexivity.
  - apply (trending_no_articles _ None None None
             {| Main.status_code := 200; Main.text := [];
                Main.json := Return (VDict [(u "articles", VNone)]) |}
             [(u "articles", VNone)]); reflexivity.
Defined.



(** X3: the [category] argument is never used.  On every run each item
    returned carries the [topic] argument as its category (None when no topic
    was given, also when the query sent was "breaking"), and two runs that
    differ only in [category] return the same result. *)
Theorem trending_category_is_topic requests_get key topic :
  (forall category,
     exists batch,
       Main.get_trending_news requests_get key topic category = Return (VList batch)
       /\ Forall (has_category (Main.opt_value topic)) batch)
  /\ (forall category1 category2,
       Main.get_trending_news requests_get key topic category1
       = Main.get_trending_news requests_get key topic category2).
Proof.
  split; [|reflexivity].
  intros category.
  destruct (get_trending_news_outcome requests_get key topic category)
    as [(h & s & m & ->)|(response & body & articles & elems & results & H)].
  - eexists. split; [reflexivity|].
    constructor; [|constructor]. unfold has_category.
    do 4 eexists. reflexivity.
  - destruct H as (_ & _ & _ & _ & _ & _ & Hmap & ->).
    exists results. split; [reflexivity|].
    exact (mapM_article_category topic elems 0%Z results Hmap).
Qed.

Section FactCheckEdges.

Lemma mapM_length {A B} (f : A -> result B) l : forall r,
  mapM f l = Return r -> List.length r = List.length l.
Proof.
  induction l as [|x l IH]; intros r; cbn [mapM].
  - intros H. now injection H as <-.
  - destruct (f x); cbn [bind]; [|discriminate].
    destruct (mapM f l) as [ys|e]; cbn [bind]; [|discriminate].
    intros H. injection H as <-. simpl. now rewrite (IH ys eq_refl).
Qed.

End FactCheckEdges.

(** X4: [fact_check_claim] never looks at the status code or the text of
    the response.  Two runs whose responses decode to the same JSON return
    the same record, so an error response with a JSON body that has no
    "items" is reported as "Unverified claim", like a search without hits. *)
Theorem fact_check_ignores_status get1 get2 k1 k2 claim r1 r2 :
  get1 (Main.fact_check_request k1 k2 claim) = Return r1 ->
  get2 (Main.fact_check_request k1 k2 claim) = Return r2 ->
  Main.json r1 = Main.json r2 ->
  Main.fact_check_claim get1 k1 k2 claim = Main.fact_check_claim get2 k1 k2 claim.
Proof.
  intros H1 H2 Hjson. unfold Main.fact_check_claim.
  rewrite H1, H2. cbn [bind]. now rewrite Hjson.
Qed.

Lemma fact_check_ignores_status_witness :
  Main.fact_check_claim
    (stub_response 403 (u "Forbidden") (Return (VDict forbidden_body)))
    None None (u "x")
  = Main.fact_check_claim
      (stub_response 200 [] (Return (VDict forbidden_body))) None None (u "x")
  /\ Main.fact_check_claim
       (stub_response 403 (u "Forbidden") (Return (VDict forbidden_body)))
       None None (u "x")
     = Return (VDict [(u "is_true", VNone); (u "verdict", VStr (u "Unverified claim"));
                   (u "sources", VList [])]).
Proof.
  split; [|reflexivity].
  apply (fact_check_ignores_status _ _ None None (u "x")
           {| Main.status_code := 403; Main.text := u "Forbidden";
              Main.json := Return (VDict forbidden_body) |}
           {| Main.status_code := 200; Main.text := [];
              Main.json := Return (VDict forbidden_body) |}); reflexivity.
Defined.

(** X5: every run of [fact_check_claim] returns one of three records, all
    with [is_true] None: "Unverified claim" with no source; "Supporting
    sources found" with one to three sources; or "Error: " followed by the
    exception text, with no source.  Sources are never returned with another
    verdict, and never more than three. *)
Theorem fact_check_three_outcomes requests_get k1 k2 claim :
  Main.fact_check_claim requests_get k1 k2 claim
  = Return (VDict [(u "is_true", VNone); (u "verdict", VStr (u "Unverified claim"));
                   (u "sources", VList [])])
  \/ (exists sources,
        Main.fact_check_claim requests_get k1 k2 claim
        = Return (VDict [(u "is_true", VNone); (u "verdict", VStr (u "Supporting sources found"));
                   (u "sources", VList sources)])
        /\ 1 <= List.length sources <= 3)
  \/ (exists e,
        Main.fact_check_claim requests_get k1 k2 claim
        = Return (VDict [(u "is_true", VNone); (u "verdict", VStr (u "Error: " ++ exn_str e));
                   (u "sources", VList [])])).
Proof.
  unfold Main.fact_check_claim.
  destruct (requests_get _) as [response|e]; cbn [bind try_except];
    [|right; right; eexists; reflexivity].
  destruct (Main.json response) as [body|e]; cbn [bind try_except];
    [|right; right; eexists; reflexivity].
  destruct (meth_get body _ _) as [items|e]; cbn [bind try_except];
    [|right; right; eexists; reflexivity].
  destruct items as [| | | |s|l| |]; cbn [slice_to bind try_except iterate];
    try (right; right; eexists; reflexivity).
  - destruct s as [|c s]; [left; reflexivity|].
    right; right. eexists. reflexivity.
  - destruct (mapM _ (firstn 3 l)) as [sources|e] eqn:Emap;
      cbn [bind try_except]; [|right; right; eexists; reflexivity].
    destruct (json_dumps _) as [w|e] eqn:Edumps; cbn [try_except];
      [|right; right; eexists; reflexivity].
    apply json_dumps_inv in Edumps as [-> _].
    apply mapM_length in Emap. rewrite length_firstn in Emap.
    destruct l as [|x l].
    + destruct sources; [|discriminate]. left. reflexivity.
    + right; left. exists sources. split; [reflexivity|].
      simpl List.length in Emap. lia.
Qed.

(** X6: only the first three items are read.  Two searches whose item
    lists agree on the first three entries give the same record, whatever
    follows: a fourth item without a link, or hundreds more items. *)
Theorem fact_check_reads_three_items get1 get2 k1 k2 claim r1 r2 b1 b2 l1 l2 :
  get1 (Main.fact_check_request k1 k2 claim) = Return r1 ->
  get2 (Main.fact_check_request k1 k2 claim) = Return r2 ->
  Main.json r1 = Return (VDict b1) ->
  Main.json r2 = Return (VDict b2) ->
  dict_get b1 (u "items") (VList []) = VList l1 ->
  dict_get b2 (u "items") (VList []) = VList l2 ->
  firstn 3 l1 = firstn 3 l2 ->
  Main.fact_check_claim get1 k1 k2 claim = Main.fact_check_claim get2 k1 k2 claim.
Proof.
  intros H1 H2 J1 J2 I1 I2 Hfirst. unfold Main.fact_check_claim.
  rewrite H1, H2. cbn [bind]. rewrite J1, J2. cbn [bind meth_get].
  rewrite I1, I2. cbn [slice_to bind iterate]. rewrite Hfirst.
  replace (truthy (VList l1)) with (truthy (VList l2)); [reflexivity|].
  destruct l1, l2; simpl in Hfirst; try discriminate; reflexivity.
Qed.

Lemma fact_check_reads_three_items_witness :
  Main.fact_check_claim
    (stub_response 200 [] (Return (VDict [(u "items", VList bad_fourth_item)])))
    None None (u "x")
  = Main.fact_check_claim
      (stub_response 200 []
         (Return (VDict [(u "items", VList (firstn 3 bad_fourth_item))])))
      None None (u "x").
Proof.
  apply (fact_check_reads_three_items _ _ None None (u "x")
           {| Main.status_code := 200; Main.text := [];
              Main.json := Return (VDict [(u "items", VList bad_fourth_item)]) |}
           {| Main.status_code := 200; Main.text := [];
              Main.json := Return (VDict [(u "items",
                                           VList (firstn 3 bad_fourth_item))]) |}
           [(u "items", VList bad_fourth_item)]
           [(u "items", VList (firstn 3 bad_fourth_item))]
           bad_fourth_item (firstn 3 bad_fourth_item)); reflexivity.
Defined.

(** X7: a link missing among the first three items loses every link.
    When one of the first three items is a dict without "link", the record is
    the error record whose verdict is "Error: 'link'" (the text of the
    KeyError), with no source, also when the other items have links. *)
Theorem fact_check_missing_link requests_get k1 k2 claim response body items
    good d rest :
  requests_get (Main.fact_check_request k1 k2 claim) = Return response ->
  Main.json response = Return (VDict body) ->
  dict_get body (u "items") (VList []) = VList items ->
  firstn 3 items = good ++ VDict d :: rest ->
  (exists links, map link_of good = map Some links) ->
  lookup (u "link") d = None ->
  Main.fact_check_claim requests_get k1 k2 claim
  = Return (VDict [(u "is_true", VNone); (u "verdict", VStr (u "Error: 'link'"));
                   (u "sources", VList [])]).
Proof.
  intros Hget Hjson Hitems Hfirst (links & Hgood) Hnone.
  unfold Main.fact_check_claim. rewrite Hget. cbn [bind]. rewrite Hjson.
  cbn [bind meth_get]. rewrite Hitems. cbn [slice_to bind iterate].
  rewrite Hfirst.
  assert (Hraise : mapM (fun item => getitem item (u "link"))
                        (good ++ VDict d :: rest)
                   = Raise (KeyError (u "link"))).
  { clear Hfirst. revert links Hgood.
    induction good as [|g good IH]; intros links Hgood; cbn [app mapM].
    - cbn [getitem]. rewrite Hnone. reflexivity.
    - destruct links as [|l links]; [discriminate|].
      simpl in Hgood. injection Hgood as Hg Hrest.
      destruct g; simpl in Hg; try discriminate.
      cbn [getitem]. rewrite Hg. cbn [bind].
      rewrite (IH links Hrest). reflexivity. }
  rewrite Hraise. reflexivity.
Qed.

Lemma fact_check_missing_link_witness :
  Main.fact_check_claim
    (stub_response 200 []
       (Return (VDict [(u "items", VList (rev bad_fourth_item))])))
    None None (u "x")
  = Return (VDict [(u "is_true", VNone); (u "verdict", VStr (u "Error: 'link'"));
                   (u "sources", VList [])]).
Proof.
  apply (fact_check_missing_link _ None None (u "x")
           {| Main.status_code := 200; Main.text := [];
              Main.json := Return (VDict [(u "items",
                                           VList (rev bad_fourth_item))]) |}
           [(u "items", VList (rev bad_fourth_item))] (rev bad_fourth_item)
           [] [(u "title", VStr (u "no link"))]
           [VDict [(u "link", VStr (u "http://c"))];
            VDict [(u "link", VStr (u "http://b"))]]);
    try reflexivity.
  exists []. reflexivity.
Defined.

(** * Further properties of the summarizer and of the text functions *)

Section SplitJoin.

Variable sep : char.

Lemma split_not_nil s : split sep s <> [].
Proof.
  destruct s as [|c s]; simpl; [discriminate|].
  destruct (N.eqb c sep); [discriminate|].
  destruct (split sep s); discriminate.
Qed.

Lemma join_cons_char c l ls : join [sep] ((c :: l) :: ls) = c :: join [sep] (l :: ls).
Proof. destruct ls; reflexivity. Qed.

Lemma split_pieces s : forall piece, In piece (split sep s) -> ~ In sep piece.
Proof.
  induction s as [|c s IH]; simpl.
  - intros piece [<-|[]] [].
  - destruct (N.eqb c sep) eqn:Ec.
    + intros piece [<-|Hin]; [intros []|auto].
    + destruct (split sep s) as [|l ls] eqn:Es.
      * intros piece [<-|[]] [Hc|[]]. subst c. now rewrite N.eqb_refl in Ec.
      * intros piece [<-|Hin].
        -- intros [Hc|Hl]; [subst c; now rewrite N.eqb_refl in Ec|].
           exact (IH l (or_introl eq_refl) Hl).
        -- exact (IH piece (or_intror Hin)).
Qed.

Lemma split_app_sep a t : ~ In sep a -> split sep (a ++ sep :: t) = a :: split sep t.
Proof.
  induction a as [|c a IH]; intros Hno; simpl.
  - now rewrite N.eqb_refl.
  - destruct (N.eqb c sep) eqn:Ec.
    + apply N.eqb_eq in Ec. subst c. destruct Hno. now left.
    + rewrite IH; [reflexivity|]. intros Hin. apply Hno. now right.
Qed.

Lemma split_no_sep a : ~ In sep a -> split sep a = [a].
Proof.
  induction a as [|c a IH]; intros Hno; simpl; [reflexivity|].
  destruct (N.eqb c sep) eqn:Ec.
  - apply N.eqb_eq in Ec. subst c. destruct Hno. now left.
  - rewrite IH; [reflexivity|]. intros Hin. apply Hno. now right.
Qed.

End SplitJoin.

(** Splitting and joining are inverse to each other.  Joining the
    pieces of [s.split(sep)] with [sep] gives [s] back; the split is never
    empty and no piece holds the separator; and splitting the join of a
    non-empty list of pieces without separator gives the pieces back. *)
Theorem split_join_round_trip (sep : char) :
  (forall s, join [sep] (split sep s) = s)
  /\ (forall s, split sep s <> []
                /\ forall piece, In piece (split sep s) -> ~ In sep piece)
  /\ (forall pieces,
        pieces <> [] -> (forall piece, In piece pieces -> ~ In sep piece) ->
        split sep (join [sep] pieces) = pieces).
Proof.
  split; [|split].
  - induction s as [|c s IH]; simpl; [reflexivity|].
    destruct (N.eqb c sep) eqn:Ec.
    + apply N.eqb_eq in Ec. subst c.
      destruct (split sep s) as [|l ls] eqn:Es; [now destruct (split_not_nil sep s)|].
      change (join [sep] ([] :: l :: ls)) with (sep :: join [sep] (l :: ls)).
      f_equal. exact IH.
    + destruct (split sep s) as [|l ls] eqn:Es; [now destruct (split_not_nil sep s)|].
      rewrite join_cons_char. f_equal. exact IH.
  - intros s. split; [apply split_not_nil|apply split_pieces].
  - induction pieces as [|a pieces IH]; intros Hne Hno; [contradiction|].
    destruct pieces as [|b pieces].
    + simpl. apply split_no_sep. apply Hno. now left.
    + change (join [sep] (a :: b :: pieces))
        with (a ++ sep :: join [sep] (b :: pieces)).
      rewrite split_app_sep by (apply Hno; now left).
      rewrite IH; [reflexivity|discriminate|].
      intros piece Hin. apply Hno. now right.
Qed.

Lemma split_join_round_trip_witness :
  split LF (join [LF] [u "a"; []; u "b c"]) = [u "a"; []; u "b c"].
Proof.
  destruct (split_join_round_trip LF) as (_ & _ & H).
  apply H; [discriminate|].
  intros piece Hin Hlf. simpl in Hin.
  destruct Hin as [<-|[<-|[<-|[]]]]; simpl in Hlf;
    repeat (destruct Hlf as [Hlf|Hlf]; [discriminate Hlf|]); contradiction.
Defined.

Section Bullets.

Lemma strip_by_all p s : forallb p s = true -> strip_by p s = [].
Proof.
  intros H. unfold strip_by.
  assert (Hd : drop_while p s = []).
  { induction s as [|c s IH]; simpl in *; [reflexivity|].
    apply andb_prop in H as [-> Hs]. auto. }
  now rewrite Hd.
Qed.

Lemma summary_lines_In text e :
  In e (Main.summary_lines text) ->
  exists line, In line (split LF text)
               /\ e = strip (strip_chars Main.markers line).
Proof.
  unfold Main.summary_lines. intros H.
  apply in_map_iff in H as (line & <- & Hin).
  apply filter_In in Hin as [Hin _]. eauto.
Qed.

Lemma filter_all {A} (f : A -> bool) l :
  (forall x, In x l -> f x = true) -> filter f l = l.
Proof.
  induction l as [|x l IH]; intros H; simpl; [reflexivity|].
  rewrite (H x (or_introl eq_refl)). f_equal. apply IH. intros y Hy.
  apply H. now right.
Qed.

(** Rendering a plain bullet as "- " and the bullet, then stripping the
    markers and the whitespace, gives the bullet back. *)
Lemma strip_bullet_line pt :
  plain_bullet pt ->
  strip (strip_chars Main.markers (u "- " ++ pt)) = pt.
Proof.
  intros (_ & _ & [Hmh Hmt] & Hws).
  assert (Hm : strip_chars Main.markers (u "- " ++ pt) = pt).
  { unfold strip_chars, strip_by.
    change (drop_while (fun c => mem c Main.markers) (u "- " ++ pt))
      with (drop_while (fun c => mem c Main.markers) pt).
    rewrite (drop_while_fixed _ _ Hmh), (drop_while_fixed _ _ Hmt).
    apply rev_involutive. }
  rewrite Hm. now apply strip_by_fixed.
Qed.

Lemma bullet_line_kept pt : strip (u "- " ++ pt) <> [].
Proof.
  intros H.
  assert (Hin : In 45%N (strip (u "- " ++ pt))).
  { apply strip_by_keeps; [now left|reflexivity]. }
  rewrite H in Hin. contradiction.
Qed.

Lemma join_lines_not_nil l ls :
  l <> [] -> join [LF] (l :: ls) <> [].
Proof.
  intros Hl. destruct ls; simpl; [assumption|].
  destruct l; [contradiction|discriminate].
Qed.

Lemma join_cons2 (sep a b : str) ps :
  join sep (a :: b :: ps) = a ++ sep ++ join sep (b :: ps).
Proof. reflexivity. Qed.

Lemma starts_with_app (q : char -> bool) a b :
  a <> [] -> starts_with q (a ++ b) = starts_with q a.
Proof. destruct a; [contradiction|reflexivity]. Qed.

Lemma rev_not_nil {A} (l : list A) : l <> [] -> rev l <> [].
Proof.
  intros Hl Hr. apply (f_equal (@rev _)) in Hr.
  rewrite rev_involutive in Hr. contradiction.
Qed.

(** The joined lines end as the last line ends. *)
Lemma join_lines_end lines :
  lines <> [] ->
  Forall (fun l => l <> [] /\ starts_with isspace (rev l) = false) lines ->
  starts_with isspace (rev (join [LF] lines)) = false.
Proof.
  induction lines as [|l lines IH]; intros Hne Hall; [contradiction|].
  inversion Hall as [|? ? [Hl Hend] Hrest]; subst.
  destruct lines as [|l' lines]; [exact Hend|].
  rewrite join_cons2, !rev_app_distr, <- app_assoc.
  rewrite starts_with_app.
  - apply IH; [discriminate|assumption].
  - apply rev_not_nil, join_lines_not_nil.
    inversion Hrest as [|? ? [Hl' _] _]. assumption.
Qed.

Lemma join_lines_tail pts :
  pts <> [] -> Forall plain_bullet pts ->
  starts_with isspace (rev (join [LF] (map (fun pt => u "- " ++ pt) pts))) = false.
Proof.
  intros Hne Hall. apply join_lines_end.
  - destruct pts; [contradiction|discriminate].
  - apply Forall_map. eapply Forall_impl; [|exact Hall].
    intros pt (Hnil & _ & _ & [_ Ht]). split; [discriminate|].
    rewrite rev_app_distr, starts_with_app; [exact Ht|].
    now apply rev_not_nil.
Qed.

End Bullets.

(** X8: the summarizer as the module defines it never summarizes.  For
    every provider, model name and article, also when the provider would
    raise, the tool returns the same "Summarization Error" record about the
    coroutine; the article text has no influence on the result. *)
Theorem summarize_news_never_summarizes p1 p2 model1 model2 article1 article2 :
  Main.summarize_news p1 model1 article1
  = Return (VDict [(u "topic", VStr (u "Summarization Error"));
                   (u "bullet_points",
                    VList [VStr (u "Failed to summarize article: 'coroutine' object has no attribute 'choices'")])])
  /\ Main.summarize_news p1 model1 article1 = Main.summarize_news p2 model2 article2.
Proof. split; reflexivity. Qed.

(** X9: a completion made of whitespace only is not an error.  With a
    client that returns the completion itself, the result is the "Custom
    Article Summary" record with an empty list of bullet points. *)
Theorem summarize_blank_completion client model article_text content rest :
  (forall prompt, Main.create client model prompt
                  = Return (Main.Completion
                              {| Main.choices := Some content :: rest |})) ->
  forallb isspace content = true ->
  Main.summarize_news_with client model article_text
  = Return (VDict [(u "topic", VStr (u "Custom Article Summary"));
                   (u "bullet_points", VList [])]).
Proof.
  intros Hcreate Hblank.
  rewrite (summarize_news_with_completion _ _ _ _ _ Hcreate).
  unfold strip. rewrite (strip_by_all _ _ Hblank). reflexivity.
Qed.

Lemma summarize_blank_completion_witness :
  Main.summarize_news_with (Main.OpenAI (stub_completion (u "  " ++ [LF; 9%N])))
    None (u "text")
  = Return (VDict [(u "topic", VStr (u "Custom Article Summary"));
                   (u "bullet_points", VList [])]).
Proof.
  apply (summarize_blank_completion _ None (u "text") (u "  " ++ [LF; 9%N]) []).
  - intros prompt. reflexivity.
  - reflexivity.
Defined.

(** X10: a completion without choices, or whose first choice has no
    content, is reported as a summarization error: the single bullet is
    "Failed to summarize article: " followed by the text of the IndexError or
    of the AttributeError. *)
Theorem summarize_malformed_completion client model article_text :
  ((forall prompt, Main.create client model prompt
                   = Return (Main.Completion {| Main.choices := [] |})) ->
   Main.summarize_news_with client model article_text
   = Return (VDict [(u "topic", VStr (u "Summarization Error"));
                   (u "bullet_points",
                    VList [VStr (u "Failed to summarize article: list index out of range")])]))
  /\ (forall rest,
       (forall prompt, Main.create client model prompt
                       = Return (Main.Completion
                                   {| Main.choices := None :: rest |})) ->
       Main.summarize_news_with client model article_text
       = Return (VDict [(u "topic", VStr (u "Summarization Error"));
                   (u "bullet_points",
                    VList [VStr (u "Failed to summarize article: 'NoneType' object has no attribute 'strip'")])])).
Proof.
  split.
  - intros Hcreate. unfold Main.summarize_news_with. rewrite Hcreate.
    reflexivity.
  - intros rest Hcreate. unfold Main.summarize_news_with. rewrite Hcreate.
    reflexivity.
Qed.

Lemma summarize_malformed_completion_witness :
  Main.summarize_news_with no_choices None []
  = Return (VDict [(u "topic", VStr (u "Summarization Error"));
                   (u "bullet_points",
                    VList [VStr (u "Failed to summarize article: list index out of range")])])
  /\ Main.summarize_news_with null_content None []
     = Return (VDict [(u "topic", VStr (u "Summarization Error"));
                   (u "bullet_points",
                    VList [VStr (u "Failed to summarize article: 'NoneType' object has no attribute 'strip'")])]).
Proof.
  split.
  - apply (proj1 (summarize_malformed_completion no_choices None [])).
    intros prompt. reflexivity.
  - apply (proj2 (summarize_malformed_completion null_content None []) []).
    intros prompt. reflexivity.
Defined.

(** X11: the bullets of line 148 stay within the lines of the completion.
    There are at most as many bullets as lines, no bullet holds a line feed,
    and every character of a bullet is a character of the text. *)
Theorem summary_lines_within_lines text :
  List.length (Main.summary_lines text) <= List.length (split LF text)
  /\ forall e, In e (Main.summary_lines text) ->
       ~ In LF e /\ forall c, In c e -> In c text.
Proof.
  split.
  - unfold Main.summary_lines. rewrite length_map. apply filter_length_le.
  - intros e He. apply summary_lines_In in He as (line & Hline & ->).
    assert (Hsub : forall c, In c (strip (strip_chars Main.markers line)) ->
                             In c line).
    { intros c Hc. apply strip_by_incl in Hc. now apply strip_by_incl in Hc. }
    split.
    + intros Hlf. apply Hsub in Hlf.
      exact (split_pieces LF text line Hline Hlf).
    + intros c Hc. apply Hsub in Hc.
      destruct (split_join_round_trip LF) as (Hjoin & _ & _).
      rewrite <- (Hjoin text).
      clear - Hline Hc. induction (split LF text) as [|l ls IH]; [contradiction|].
      destruct Hline as [<-|Hline].
      * destruct ls; cbn [join]; [assumption|]. apply in_or_app. now left.
      * destruct ls as [|l' ls]; [contradiction|]. cbn [join].
        apply in_or_app. right. apply in_or_app. right. now apply IH.
Qed.

Lemma summary_lines_within_lines_witness :
  ~ In LF (u "point two")
  /\ forall c, In c (u "point two") -> In c three_points.
Proof.
  destruct (summary_lines_within_lines three_points) as [_ H].
  apply (H (u "point two")). right. left. reflexivity.
Defined.

(** X12: parsing undoes rendering.  The bullet lines that [format_response]
    writes for a summary ("- " and the point, one per line), read back by the
    parsing of lines 147-148, give the points again, when every point is
    plain: not empty, without line feed, and with neither a marker nor
    whitespace at either end. *)
Theorem render_then_parse_bullets pts :
  pts <> [] -> Forall plain_bullet pts ->
  Main.summary_lines
    (strip (join [LF] (map UI.bullet_line (map VStr pts)))) = pts.
Proof.
  intros Hne Hall.
  rewrite map_map.
  change (map (fun x => UI.bullet_line (VStr x)) pts)
    with (map (fun pt => u "- " ++ pt) pts).
  assert (Hstrip : strip (join [LF] (map (fun pt => u "- " ++ pt) pts))
                   = join [LF] (map (fun pt => u "- " ++ pt) pts)).
  { apply strip_by_fixed. split; [|now apply join_lines_tail].
    destruct pts as [|pt pts]; [contradiction|].
    cbn [map]. destruct pts; reflexivity. }
  rewrite Hstrip. unfold Main.summary_lines.
  destruct (split_join_round_trip LF) as (_ & _ & Hsplit).
  rewrite Hsplit.
  - rewrite filter_all.
    + rewrite map_map. rewrite <- (map_id pts) at 2.
      apply map_ext_in. intros pt Hpt. apply strip_bullet_line.
      rewrite Forall_forall in Hall. now apply Hall.
    + intros line Hline. apply in_map_iff in Hline as (pt & <- & _).
      cbn [truthy]. pose proof (bullet_line_kept pt) as Hk.
      destruct (strip (u "- " ++ pt)); [contradiction|reflexivity].
  - destruct pts; [contradiction|discriminate].
  - intros piece Hpiece. apply in_map_iff in Hpiece as (pt & <- & Hpt).
    rewrite Forall_forall in Hall. destruct (Hall pt Hpt) as (_ & Hlf & _).
    intros [H|[H|H]]; [discriminate H|discriminate H|contradiction].
Qed.

Lemma render_then_parse_bullets_witness :
  Main.summary_lines
    (strip (join [LF] (map UI.bullet_line
                           (map VStr [u "point one"; u "well-known fact"]))))
  = [u "point one"; u "well-known fact"].
Proof.
  apply render_then_parse_bullets; [discriminate|].
  repeat constructor; try discriminate; try reflexivity;
    intros H; simpl in H;
    repeat (destruct H as [H|H]; [discriminate H|]); contradiction.
Defined.

(** * Further properties of startup and of the renderer *)

(** X13: when startup succeeds, the three required settings are there and
    not empty, and the six settings are the values of the environment. *)
Theorem load_settings_success getenv s :
  Main.load_settings getenv = Return s ->
  (forall name, In name required_names -> exists c t, getenv name = Some (c :: t))
  /\ Main.BASE_URL s = getenv (u "BASE_URL")
  /\ Main.API_KEY s = getenv (u "API_KEY")
  /\ Main.MODEL_NAME s = getenv (u "MODEL_NAME")
  /\ Main.GNEWS_API_KEY s = getenv (u "GNEWS_API_KEY")
  /\ Main.GOOGLE_API_KEY s = getenv (u "GOOGLE_API_KEY")
  /\ Main.SEARCH_ENGINE_ID s = getenv (u "SEARCH_ENGINE_ID").
Proof.
  unfold Main.load_settings.
  destruct (getenv (u "BASE_URL")) as [[|c1 t1]|] eqn:E1; cbn [Main.unset orb];
    try discriminate.
  destruct (getenv (u "API_KEY")) as [[|c2 t2]|] eqn:E2; cbn [Main.unset orb];
    try discriminate.
  destruct (getenv (u "MODEL_NAME")) as [[|c3 t3]|] eqn:E3; cbn [Main.unset orb];
    try discriminate.
  intros H. injection H as <-. split; [|repeat split].
  intros name Hin. simpl in Hin.
  destruct Hin as [<-|[<-|[<-|[]]]]; eauto.
Qed.

Lemma load_settings_success_witness :
  exists s, Main.load_settings (fun _ => Some (u "x")) = Return s
            /\ Main.MODEL_NAME s = Some (u "x")
            /\ Main.GNEWS_API_KEY s = Some (u "x").
Proof.
  eexists. split; [reflexivity|].
  destruct (load_settings_success (fun _ => Some (u "x")) _ eq_refl)
    as (_ & _ & _ & Hm & Hg & _).
  exact (conj Hm Hg).
Defined.

(** X15: what [format_response] raises on an incomplete dict.  A dict with
    "headline" raises KeyError for "source", or for "summary" when "source"
    is there; a dict with "verdict" whose "sources" is None raises TypeError;
    a dict with "bullet_points" and no "topic" raises KeyError for "topic".
    A missing "sources" is not an error: it renders as no source. *)
Theorem format_response_incomplete_dict output d :
  UI.as_mapping output = VDict d ->
  (forall h, lookup (u "headline") d = Some h ->
             lookup (u "source") d = None ->
             UI.format_response output = Raise (KeyError (u "source")))
  /\ (forall h s, lookup (u "headline") d = Some h ->
                  lookup (u "source") d = Some s ->
                  lookup (u "summary") d = None ->
                  UI.format_response output = Raise (KeyError (u "summary")))
  /\ (forall v, lookup (u "headline") d = None ->
                lookup (u "verdict") d = Some v ->
                lookup (u "sources") d = Some VNone ->
                UI.format_response output
                = Raise (TypeError (u "'NoneType' object is not iterable")))
  /\ (forall v, lookup (u "headline") d = None ->
                lookup (u "verdict") d = Some v ->
                lookup (u "sources") d = None ->
                UI.format_response output = Return (verdict_text v []))
  /\ (forall bp pts, lookup (u "headline") d = None ->
                     lookup (u "verdict") d = None ->
                     lookup (u "bullet_points") d = Some bp ->
                     iterate bp = Return pts ->
                     lookup (u "topic") d = None ->
                     UI.format_response output = Raise (KeyError (u "topic"))).
Proof.
  intros Hmap. unfold UI.format_response. rewrite Hmap.
  split; [|split; [|split; [|split]]].
  - intros h Hh Hs. rewrite (contains_lookup _ _ _ Hh).
    cbn [getitem]. rewrite Hh, Hs. reflexivity.
  - intros h s Hh Hs Hm. rewrite (contains_lookup _ _ _ Hh).
    cbn [getitem]. rewrite Hh, Hs, Hm. reflexivity.
  - intros v Hh Hv Hs.
    rewrite (contains_none _ _ Hh), (contains_lookup _ _ _ Hv).
    unfold dict_get. rewrite Hs. reflexivity.
  - intros v Hh Hv Hs.
    rewrite (contains_none _ _ Hh), (contains_lookup _ _ _ Hv).
    unfold dict_get. rewrite Hs. cbn [iterate bind getitem]. rewrite Hv.
    reflexivity.
  - intros bp pts Hh Hv Hbp Hpts Ht.
    rewrite (contains_none _ _ Hh), (contains_none _ _ Hv),
      (contains_lookup _ _ _ Hbp).
    cbn [getitem]. rewrite Hbp. cbn [bind]. rewrite Hpts. cbn [bind].
    rewrite Ht. reflexivity.
Qed.

Lemma format_response_incomplete_dict_witness :
  UI.format_response headline_only = Raise (KeyError (u "source"))
  /\ UI.format_response
       (VDict [(u "headline", VStr (u "h")); (u "source", VStr (u "s"))])
     = Raise (KeyError (u "summary"))
  /\ UI.format_response (VDict [(u "verdict", VStr (u "v")); (u "sources", VNone)])
     = Raise (TypeError (u "'NoneType' object is not iterable"))
  /\ UI.format_response (VDict [(u "verdict", VStr (u "v"))])
     = Return (u "**Verdict:** v" ++ [LF; LF] ++ u "**Sources:**" ++ [LF])
  /\ UI.format_response (VDict [(u "bullet_points", VList [])])
     = Raise (KeyError (u "topic")).
Proof.
  split; [|split; [|split; [|split]]].
  - destruct (format_response_incomplete_dict headline_only _ eq_refl)
      as (H & _).
    apply (H (VStr (u "h"))); reflexivity.
  - destruct (format_response_incomplete_dict
                (VDict [(u "headline", VStr (u "h")); (u "source", VStr (u "s"))])
                _ eq_refl) as (_ & H & _).
    apply (H (VStr (u "h")) (VStr (u "s"))); reflexivity.
  - destruct (format_response_incomplete_dict
                (VDict [(u "verdict", VStr (u "v")); (u "sources", VNone)])
                _ eq_refl) as (_ & _ & H & _).
    apply (H (VStr (u "v"))); reflexivity.
  - destruct (format_response_incomplete_dict
                (VDict [(u "verdict", VStr (u "v"))]) _ eq_refl)
      as (_ & _ & _ & H & _).
    apply (H (VStr (u "v"))); reflexivity.
  - destruct (format_response_incomplete_dict
                (VDict [(u "bullet_points", VList [])]) _ eq_refl)
      as (_ & _ & _ & _ & H).
    apply (H (VList []) []); reflexivity.
Defined.

(** * Properties of the chat session of ui_Main.py *)

Section ChatFacts.

Lemma init_keys_of s w : Chat.init_session (Chat.keys_of s) w = (s, w).
Proof. destruct s. reflexivity. Qed.

Lemma extends_refl s : extends s s [].
Proof. unfold extends. now rewrite app_nil_r. Qed.

Lemma extends_trans s1 s2 s3 n1 n2 :
  extends s1 s2 n1 -> extends s2 s3 n2 -> extends s1 s3 (n1 ++ n2).
Proof.
  intros (H1 & T1 & C1 & P1) (H2 & T2 & C2 & P2). unfold extends.
  rewrite H2, H1, app_assoc. repeat split; congruence.
Qed.

Lemma append_assistant_spec text s w :
  exists turn w',
    Chat.append_assistant text s w = (Chat.append_turn s turn, w')
    /\ by_assistant turn /\ Chat.content turn = text
    /\ Chat.uuids_drawn w' = Chat.uuids_drawn w
    /\ Chat.uuid_at w' = Chat.uuid_at w.
Proof.
  unfold Chat.append_assistant, Chat.now_stamp, Main.datetime_now.
  eexists. eexists. repeat split.
Qed.

Lemma append_turn_extends s turn : extends s (Chat.append_turn s turn) [turn].
Proof. unfold extends. auto. Qed.

(** The loop appends one assistant turn per rendered item and stops at the
    first failure. *)
Lemma render_items_spec items : forall s w s' w' oe,
  Chat.render_items items s w = (s', w', oe) ->
  exists new,
    extends s s' new /\ Forall by_assistant new
    /\ map Chat.content new ++ match oe with
                                | Some e => [error_text e]
                                | None => []
                                end = rendered_until_error items
    /\ Chat.uuids_drawn w' = Chat.uuids_drawn w.
Proof.
  induction items as [|item items IH]; intros s w s' w' oe;
    cbn [Chat.render_items rendered_until_error].
  - intros H. injection H as <- <- <-. exists [].
    split; [apply extends_refl|]. repeat split; auto.
  - destruct (UI.format_response item) as [text|e].
    + destruct (append_assistant_spec text s w)
        as (turn & w1 & -> & Hrole & Hcontent & Hdrawn & _).
      intros H. destruct (IH _ _ _ _ _ H) as (new & Hext & Hall & Htexts & Hd).
      exists (turn :: new). split; [|split; [|split]].
      * exact (extends_trans _ _ _ [turn] new (append_turn_extends s turn) Hext).
      * now constructor.
      * cbn [map app]. now rewrite Hcontent, Htexts.
      * congruence.
    + intros H. injection H as <- <- <-. exists [].
      split; [apply extends_refl|]. repeat split; auto.
Qed.

(** What one pass through lines 142-175 does to a session that has a
    pending message. *)
Lemma process_pending_spec run s w c t :
  Chat.processing_message s = Some (c :: t) ->
  exists s' w' new,
    Chat.process_pending run s w = (s', w', true)
    /\ Chat.chat_history s' = Chat.chat_history s ++ new
    /\ Chat.thread_id s' = Chat.thread_id s
    /\ Chat.user_context s' = Chat.user_context s
    /\ Chat.processing_message s' = None
    /\ Forall by_assistant new
    /\ map Chat.content new = reply_texts (run (c :: t) (Chat.user_context s))
    /\ Chat.uuids_drawn w' = Chat.uuids_drawn w.
Proof.
  intros Hpending. unfold Chat.process_pending. rewrite Hpending.
  set (s0 := Chat.set_processing_message s None).
  change (Chat.user_context s0) with (Chat.user_context s).
  assert (Hone : forall text,
            exists s' w' new,
              Chat.append_assistant text s0 w = (s', w')
              /\ Chat.chat_history s' = Chat.chat_history s ++ new
              /\ Chat.thread_id s' = Chat.thread_id s
              /\ Chat.user_context s' = Chat.user_context s
              /\ Chat.processing_message s' = None
              /\ Forall by_assistant new
              /\ map Chat.content new = [text]
              /\ Chat.uuids_drawn w' = Chat.uuids_drawn w).
  { intros text.
    destruct (append_assistant_spec text s0 w)
      as (turn & w1 & Heq & Hrole & Hcontent & Hdrawn & _).
    exists (Chat.append_turn s0 turn), w1, [turn].
    repeat split; auto. cbn [map]. now rewrite Hcontent. }
  destruct (run (c :: t) (Chat.user_context s)) as [out|e]; cbn [reply_texts].
  - destruct out as [| | | | |items| |];
      try (match goal with
           | |- context [UI.format_response ?v] =>
               destruct (UI.format_response v) as [shown|err]
           end;
           [destruct (Hone shown) as (s' & w' & new & Heq & H)
           |destruct (Hone (error_text err)) as (s' & w' & new & Heq & H);
            unfold error_text in Heq; unfold Chat.append_error];
           rewrite Heq; exists s', w', new; (split; [reflexivity|exact H])).
    destruct (Chat.render_items items s0 w) as [[s1 w1] oe] eqn:Eloop.
    destruct (render_items_spec _ _ _ _ _ _ Eloop)
      as (new & (Hh & Ht & Hc & Hp) & Hall & Htexts & Hd).
    destruct oe as [e|].
    + destruct (append_assistant_spec (error_text e) s1 w1)
        as (turn & w2 & Heq & Hrole & Hcontent & Hdrawn & _).
      unfold Chat.append_error. fold (error_text e). rewrite Heq.
      exists (Chat.append_turn s1 turn), w2, (new ++ [turn]).
      split; [reflexivity|]. cbn [Chat.append_turn Chat.chat_history
        Chat.thread_id Chat.user_context Chat.processing_message].
      repeat split; auto.
      * rewrite Hh. cbn. now rewrite app_assoc.
      * apply Forall_app. split; [assumption|]. now repeat constructor.
      * rewrite map_app. cbn [map]. now rewrite Hcontent.
      * congruence.
    + rewrite app_nil_r in Htexts.
      exists s1, w1, new. split; [reflexivity|]. repeat split; auto.
  - destruct (Hone (error_text e)) as (s' & w' & new & Heq & H).
    unfold error_text in Heq. unfold Chat.append_error. rewrite Heq.
    exists s', w', new. split; [reflexivity|exact H].
Qed.

Lemma process_pending_idle run s w :
  Chat.processing_message s = None \/ Chat.processing_message s = Some [] ->
  Chat.process_pending run s w = (s, w, false).
Proof.
  unfold Chat.process_pending. intros [->| ->]; reflexivity.
Qed.

End ChatFacts.

Section ScriptFacts.

Variable run : Chat.runner.

Lemma rendered_until_error_app good : forall texts bad rest e,
  mapM UI.format_response good = Return texts ->
  UI.format_response bad = Raise e ->
  rendered_until_error (good ++ bad :: rest) = texts ++ [error_text e].
Proof.
  induction good as [|g good IH]; intros texts bad rest e;
    cbn [mapM app rendered_until_error].
  - intros H Hbad. injection H as <-. now rewrite Hbad.
  - destruct (UI.format_response g) as [text|e0]; cbn [bind]; [|discriminate].
    destruct (mapM UI.format_response good) as [ts|e0] eqn:Egood; cbn [bind];
      [|discriminate].
    intros H Hbad. injection H as <-. cbn [app]. f_equal.
    now apply IH.
Qed.

Lemma rendered_until_error_all items : forall texts,
  mapM UI.format_response items = Return texts ->
  rendered_until_error items = texts.
Proof.
  induction items as [|g items IH]; intros texts; cbn [mapM rendered_until_error].
  - intros H. now injection H as <-.
  - destruct (UI.format_response g) as [text|e0]; cbn [bind]; [|discriminate].
    destruct (mapM UI.format_response items) as [ts|e0]; cbn [bind];
      [|discriminate].
    intros H. injection H as <-. f_equal. now apply IH.
Qed.

(** One script run: the user id and the session start stay, and without
    the New Session button the history only grows. *)
Lemma script_run_spec wd s w :
  exists s' w' rerun,
    Chat.script_run run wd s w = (s', w', rerun)
    /\ Main.user_id (Chat.user_context s') = Main.user_id (Chat.user_context s)
    /\ Main.session_start (Chat.user_context s')
       = Main.session_start (Chat.user_context s)
    /\ (Chat.new_session_clicked wd = false ->
        exists new, Chat.chat_history s' = Chat.chat_history s ++ new).
Proof.
  unfold Chat.script_run.
  set (s1 := if Chat.save_clicked wd
             then Chat.save_preferences (Chat.selected_topics wd) s else s).
  assert (H1 : Main.user_id (Chat.user_context s1)
               = Main.user_id (Chat.user_context s)
               /\ Main.session_start (Chat.user_context s1)
                  = Main.session_start (Chat.user_context s)
               /\ Chat.chat_history s1 = Chat.chat_history s).
  { subst s1. destruct (Chat.save_clicked wd); repeat split. }
  destruct H1 as (Hid1 & Hst1 & Hh1).
  destruct (if Chat.new_session_clicked wd then Chat.new_session s1 w else (s1, w))
    as [s2 w2] eqn:E2.
  assert (H2 : Chat.user_context s2 = Chat.user_context s1
               /\ (Chat.new_session_clicked wd = false ->
                   Chat.chat_history s2 = Chat.chat_history s1)).
  { destruct (Chat.new_session_clicked wd).
    - unfold Chat.new_session, Chat.uuid4 in E2. injection E2 as <- <-.
      split; [reflexivity|discriminate].
    - injection E2 as <- <-. auto. }
  destruct H2 as (Hc2 & Hh2).
  assert (Hgoal : forall s' (w' : Chat.World) (rerun : bool),
            Chat.user_context s' = Chat.user_context s2 ->
            (exists new, Chat.chat_history s' = Chat.chat_history s2 ++ new) ->
            Main.user_id (Chat.user_context s') = Main.user_id (Chat.user_context s)
            /\ Main.session_start (Chat.user_context s')
               = Main.session_start (Chat.user_context s)
            /\ (Chat.new_session_clicked wd = false ->
                exists new, Chat.chat_history s' = Chat.chat_history s ++ new)).
  { intros s' w' rerun Hc (new & Hh). rewrite Hc, Hc2. repeat split; auto.
    intros Hno. exists new. now rewrite Hh, (Hh2 Hno), Hh1. }
  destruct (Chat.user_prompt wd) as [[|c t]|].
  - destruct (Chat.processing_message s2) as [[|c t]|] eqn:Ep.
    + rewrite process_pending_idle by auto.
      exists s2, w2, false. split; [reflexivity|].
      apply (Hgoal s2 w2 false eq_refl). exists []. now rewrite app_nil_r.
    + destruct (process_pending_spec run s2 w2 c t Ep)
        as (s' & w' & new & -> & Hh & _ & Hc & _).
      exists s', w', true. split; [reflexivity|].
      apply (Hgoal s' w' true Hc). eauto.
    + rewrite process_pending_idle by auto.
      exists s2, w2, false. split; [reflexivity|].
      apply (Hgoal s2 w2 false eq_refl). exists []. now rewrite app_nil_r.
  - unfold Chat.handle_user_input, Chat.now_stamp, Main.datetime_now.
    eexists. eexists. exists true. split; [reflexivity|].
    apply (Hgoal _ w2 true); [reflexivity|]. eexists. reflexivity.
  - destruct (Chat.processing_message s2) as [[|c t]|] eqn:Ep.
    + rewrite process_pending_idle by auto.
      exists s2, w2, false. split; [reflexivity|].
      apply (Hgoal s2 w2 false eq_refl). exists []. now rewrite app_nil_r.
    + destruct (process_pending_spec run s2 w2 c t Ep)
        as (s' & w' & new & -> & Hh & _ & Hc & _).
      exists s', w', true. split; [reflexivity|].
      apply (Hgoal s' w' true Hc). eauto.
    + rewrite process_pending_idle by auto.
      exists s2, w2, false. split; [reflexivity|].
      apply (Hgoal s2 w2 false eq_refl). exists []. now rewrite app_nil_r.
Qed.

End ScriptFacts.

(** X16: a rerun keeps the session.  The initialisation of lines 64-71
    keeps every key that is already set, so running it on an initialised
    session changes nothing and draws no uuid; on an empty session state it
    gives an empty history, no pending message, and a thread id and a user id
    taken from two successive uuid draws. *)
Theorem init_session_keeps_state keys w :
  Chat.init_session (Chat.keys_of (fst (Chat.init_session keys w)))
                    (snd (Chat.init_session keys w))
  = Chat.init_session keys w
  /\ (forall h, Chat.k_chat_history keys = Some h ->
                Chat.chat_history (fst (Chat.init_session keys w)) = h)
  /\ (forall t, Chat.k_thread_id keys = Some t ->
                Chat.thread_id (fst (Chat.init_session keys w)) = t)
  /\ (forall ctx, Chat.k_user_context keys = Some ctx ->
                  Chat.user_context (fst (Chat.init_session keys w)) = ctx)
  /\ (forall m, Chat.k_processing_message keys = Some m ->
                Chat.processing_message (fst (Chat.init_session keys w)) = m)
  /\ (keys = Chat.no_keys ->
      Chat.chat_history (fst (Chat.init_session keys w)) = []
      /\ Chat.processing_message (fst (Chat.init_session keys w)) = None
      /\ Chat.thread_id (fst (Chat.init_session keys w))
         = Chat.uuid_at w (Chat.uuids_drawn w)
      /\ Main.user_id (Chat.user_context (fst (Chat.init_session keys w)))
         = Chat.uuid_at w (S (Chat.uuids_drawn w))
      /\ Main.preferred_topics (Chat.user_context (fst (Chat.init_session keys w)))
         = []
      /\ Chat.uuids_drawn (snd (Chat.init_session keys w))
         = S (S (Chat.uuids_drawn w))).
Proof.
  split.
  - rewrite init_keys_of. symmetry. apply surjective_pairing.
  - destruct keys as [h t c m]. cbn [Chat.k_chat_history Chat.k_thread_id
      Chat.k_user_context Chat.k_processing_message].
    repeat split.
    + intros h' ->. destruct t, c; reflexivity.
    + intros t' ->. destruct c; reflexivity.
    + intros c' ->. destruct t; reflexivity.
    + intros m' ->. destruct t, c; reflexivity.
    + injection H as -> -> -> ->. reflexivity.
    + injection H as -> -> -> ->. reflexivity.
    + injection H as -> -> -> ->. reflexivity.
    + injection H as -> -> -> ->. reflexivity.
    + injection H as -> -> -> ->. reflexivity.
    + injection H as -> -> -> ->. reflexivity.
Qed.

Lemma init_session_keeps_state_witness :
  Chat.chat_history
    (fst (Chat.init_session (Chat.keys_of pending_session) sample_world)) = []
  /\ Chat.processing_message
       (fst (Chat.init_session (Chat.keys_of pending_session) sample_world))
     = Some (u "hi")
  /\ Chat.thread_id (fst (Chat.init_session Chat.no_keys sample_world))
     = u "uuid-0"
  /\ Main.user_id
       (Chat.user_context (fst (Chat.init_session Chat.no_keys sample_world)))
     = u "uuid-1".
Proof.
  destruct (init_session_keeps_state (Chat.keys_of pending_session) sample_world)
    as (_ & Hh & _ & _ & Hm & _).
  destruct (init_session_keeps_state Chat.no_keys sample_world)
    as (_ & _ & _ & _ & _ & Hfresh).
  destruct (Hfresh eq_refl) as (_ & _ & Ht & Hu & _).
  split; [apply Hh; reflexivity|].
  split; [apply Hm; reflexivity|].
  split; [exact Ht|exact Hu].
Defined.

(** X17: what processing a pending message leaves behind.  The script
    reruns, the pending message is cleared, the thread and the user context
    are kept, and the history grows by assistant turns only, whose texts are:
    the error text when the agent run raises; for a list, the renderings of
    its items up to the first one that fails, then the error text; for any
    other output, its rendering or the error text. *)
Theorem process_pending_replies run s w c t :
  Chat.processing_message s = Some (c :: t) ->
  exists s' w' new,
    Chat.process_pending run s w = (s', w', true)
    /\ Chat.chat_history s' = Chat.chat_history s ++ new
    /\ Chat.thread_id s' = Chat.thread_id s
    /\ Chat.user_context s' = Chat.user_context s
    /\ Chat.processing_message s' = None
    /\ Forall by_assistant new
    /\ map Chat.content new = reply_texts (run (c :: t) (Chat.user_context s))
    /\ Chat.uuids_drawn w' = Chat.uuids_drawn w.
Proof. apply process_pending_spec. Qed.

Lemma process_pending_replies_witness :
  exists s' w' new,
    Chat.process_pending run_text pending_session sample_world = (s', w', true)
    /\ Chat.chat_history s' = new
    /\ Chat.processing_message s' = None
    /\ map Chat.content new = [u "hello"].
Proof.
  destruct (process_pending_replies run_text pending_session sample_world
              104%N [105%N] eq_refl)
    as (s' & w' & new & Hrun & Hh & _ & _ & Hp & _ & Htexts & _).
  exists s', w', new. repeat split; assumption.
Defined.

(** X18: a list whose item fails to render is answered in part.  When the
    agent returns a list in which the items [good] render and the next item
    raises [e], the history grows by the renderings of [good] followed by one
    turn "Error: " and [str(e)]; the items after the failing one are never
    rendered. *)
Theorem process_list_stops_at_failure run s w c t good bad rest texts e :
  Chat.processing_message s = Some (c :: t) ->
  run (c :: t) (Chat.user_context s) = Return (VList (good ++ bad :: rest)) ->
  mapM UI.format_response good = Return texts ->
  UI.format_response bad = Raise e ->
  exists s' w' new,
    Chat.process_pending run s w = (s', w', true)
    /\ Chat.chat_history s' = Chat.chat_history s ++ new
    /\ map Chat.content new = texts ++ [u "Error: " ++ exn_str e]
    /\ Chat.processing_message s' = None.
Proof.
  intros Hpending Hrun Hgood Hbad.
  destruct (process_pending_spec run s w c t Hpending)
    as (s' & w' & new & Heq & Hh & _ & _ & Hp & _ & Htexts & _).
  exists s', w', new. repeat split; auto.
  rewrite Htexts, Hrun. cbn [reply_texts].
  now apply rendered_until_error_app.
Qed.

Lemma process_list_stops_at_failure_witness :
  exists s' w' new,
    Chat.process_pending run_bad_middle pending_session sample_world = (s', w', true)
    /\ Chat.chat_history s' = Chat.chat_history pending_session ++ new
    /\ map Chat.content new = [u "one"; u "Error: 'source'"]
    /\ Chat.processing_message s' = None.
Proof.
  apply (process_list_stops_at_failure run_bad_middle pending_session sample_world
           104%N [105%N] [VStr (u "one")] headline_only [VStr (u "three")]
           [u "one"] (KeyError (u "source"))); reflexivity.
Defined.

(** X19: an empty list from the agent leaves the user without an answer.
    The pending message is cleared and the script reruns, but no turn is
    appended, not even an error turn; a list whose items all render gives one
    turn per item, in order. *)
Theorem process_list_all_rendered run s w c t items texts :
  Chat.processing_message s = Some (c :: t) ->
  run (c :: t) (Chat.user_context s) = Return (VList items) ->
  mapM UI.format_response items = Return texts ->
  exists s' w' new,
    Chat.process_pending run s w = (s', w', true)
    /\ Chat.chat_history s' = Chat.chat_history s ++ new
    /\ map Chat.content new = texts
    /\ (items = [] -> Chat.chat_history s' = Chat.chat_history s)
    /\ Chat.processing_message s' = None.
Proof.
  intros Hpending Hrun Hall.
  destruct (process_pending_spec run s w c t Hpending)
    as (s' & w' & new & Heq & Hh & _ & _ & Hp & _ & Htexts & _).
  rewrite Hrun in Htexts. cbn [reply_texts] in Htexts.
  rewrite (rendered_until_error_all _ _ Hall) in Htexts.
  exists s', w', new. repeat split; auto.
  intros ->. cbn [mapM] in Hall. injection Hall as <-.
  destruct new; [now rewrite app_nil_r in Hh|discriminate].
Qed.

Lemma process_list_all_rendered_witness :
  exists s' w',
    Chat.process_pending run_empty_list pending_session sample_world = (s', w', true)
    /\ Chat.chat_history s' = []
    /\ Chat.processing_message s' = None.
Proof.
  destruct (process_list_all_rendered run_empty_list pending_session sample_world
              104%N [105%N] [] [] eq_refl eq_refl eq_refl)
    as (s' & w' & new & Hrun & _ & _ & Hempty & Hp).
  exists s', w'.
  exact (conj Hrun (conj (Hempty eq_refl) Hp)).
Defined.

(** X20: no script run changes who the user is.  Over any sequence of
    script runs (preferences saved, sessions renewed, prompts submitted and
    processed) the user id and the session start of the context stay what they
    were; only the preferred topics can change. *)
Theorem user_identity_kept run wds : forall s w,
  Main.user_id (Chat.user_context (fst (Chat.script_runs run wds s w)))
  = Main.user_id (Chat.user_context s)
  /\ Main.session_start (Chat.user_context (fst (Chat.script_runs run wds s w)))
     = Main.session_start (Chat.user_context s).
Proof.
  induction wds as [|wd wds IH]; intros s w; cbn [Chat.script_runs].
  - auto.
  - destruct (script_run_spec run wd s w) as (s' & w' & r & -> & Hid & Hst & _).
    destruct (IH s' w') as [Hid' Hst']. split; congruence.
Qed.

(** X21: the history is append-only between two New Session clicks.  Over
    any sequence of script runs in which the New Session button is not
    clicked, the history at the end is the history at the start followed by
    the turns appended since. *)
Theorem history_append_only run wds : forall s w,
  Forall (fun wd => Chat.new_session_clicked wd = false) wds ->
  exists new,
    Chat.chat_history (fst (Chat.script_runs run wds s w))
    = Chat.chat_history s ++ new.
Proof.
  induction wds as [|wd wds IH]; intros s w Hall; cbn [Chat.script_runs].
  - exists []. now rewrite app_nil_r.
  - inversion Hall as [|? ? Hwd Hrest]; subst.
    destruct (script_run_spec run wd s w) as (s' & w' & r & -> & _ & _ & Hgrow).
    destruct (Hgrow Hwd) as (new1 & H1).
    destruct (IH s' w' Hrest) as (new2 & H2).
    exists (new1 ++ new2). now rewrite H2, H1, app_assoc.
Qed.

Lemma history_append_only_witness :
  exists new,
    Chat.chat_history
      (fst (Chat.script_runs run_text
              [submit sample_session (u "hi"); Chat.idle sample_session]
              sample_session sample_world))
    = Chat.chat_history sample_session ++ new.
Proof.
  apply history_append_only. repeat constructor.
Defined.

(** X22: a prompt settles in three script runs.  The run in which the
    user submits a text appends the user turn, stores the text as pending and
    reruns; the next run answers it, clears it and reruns; the run after that
    changes nothing and does not rerun.  At the end the history is the old
    history, the user turn and the assistant turns of the answer. *)
Theorem prompt_settles run s w c t :
  exists s1 w1 s2 w2 turn new,
    Chat.script_run run (submit s (c :: t)) s w = (s1, w1, true)
    /\ Chat.script_run run (Chat.idle s1) s1 w1 = (s2, w2, true)
    /\ Chat.script_run run (Chat.idle s2) s2 w2 = (s2, w2, false)
    /\ Chat.chat_history s2 = Chat.chat_history s ++ turn :: new
    /\ Chat.role turn = u "user" /\ Chat.content turn = c :: t
    /\ Forall by_assistant new
    /\ map Chat.content new = reply_texts (run (c :: t) (Chat.user_context s))
    /\ Chat.processing_message s2 = None
    /\ Chat.user_context s2 = Chat.user_context s
    /\ Chat.thread_id s2 = Chat.thread_id s.
Proof.
  destruct (Chat.handle_user_input (c :: t) s w) as [s1 w1] eqn:E1.
  assert (H1 : exists turn,
            Chat.chat_history s1 = Chat.chat_history s ++ [turn]
            /\ Chat.role turn = u "user" /\ Chat.content turn = c :: t
            /\ Chat.processing_message s1 = Some (c :: t)
            /\ Chat.user_context s1 = Chat.user_context s
            /\ Chat.thread_id s1 = Chat.thread_id s).
  { unfold Chat.handle_user_input, Chat.now_stamp, Main.datetime_now in E1.
    injection E1 as <- <-. eexists. repeat split. }
  destruct H1 as (turn & Hh1 & Hrole & Hcontent & Hp1 & Hc1 & Ht1).
  destruct (process_pending_spec run s1 w1 c t Hp1)
    as (s2 & w2 & new & E2 & Hh2 & Ht2 & Hc2 & Hp2 & Hall & Htexts & _).
  exists s1, w1, s2, w2, turn, new.
  split; [|split; [|split]].
  - unfold Chat.script_run. cbn [submit Chat.save_clicked
      Chat.new_session_clicked Chat.user_prompt]. now rewrite E1.
  - unfold Chat.script_run. cbn [Chat.idle Chat.save_clicked
      Chat.new_session_clicked Chat.user_prompt]. exact E2.
  - unfold Chat.script_run. cbn [Chat.idle Chat.save_clicked
      Chat.new_session_clicked Chat.user_prompt].
    apply process_pending_idle. now left.
  - repeat split; auto; try congruence.
    rewrite Hh2, Hh1, <- app_assoc. reflexivity.
Qed.
